(** * Invoice / purchase-order reconciliation: the matching engine and the
      date normalizer

    A shallow embedding of [reconciliation.ts] and [dateUtils.ts].

    - JavaScript numbers are IEEE-754 binary64 values: [float] of the
      kernel, with its own [abs], [-], [*], [/], [<?] and [=?].
    - JavaScript strings are [string]s of 7-bit code units; the case
      maps, [trim] and the [\s] class act on that range.
    - [number | string] fields are the sum [NumOrStr]; an optional field
      is an [option].
    - The loop of [reconcileInvoiceData] pushes rows on an accumulator,
      which is threaded explicitly. *)

From Stdlib Require Import ZArith List String Ascii Bool Lia.
From Stdlib Require Import Floats Uint63 DecimalString.
Import ListNotations.

#[local] Set Warnings "-inexact-float,-register-all".

Local Open Scope string_scope.
Local Open Scope list_scope.

(* ================================================================= *)
(** ** The JavaScript built-ins the two files call *)

Module JS.

(** *** Characters and strings *)

Definition code (c : ascii) : nat := nat_of_ascii c.

(** [\s] and the characters removed by [trim]: TAB, LF, VT, FF, CR, SP. *)
Definition isWhiteSpace (c : ascii) : bool :=
  Nat.eqb (code c) 32 || (Nat.leb 9 (code c) && Nat.leb (code c) 13).

(** [\d] *)
Definition isDigit (c : ascii) : bool :=
  Nat.leb 48 (code c) && Nat.leb (code c) 57.

Definition isUpper (c : ascii) : bool :=
  Nat.leb 65 (code c) && Nat.leb (code c) 90.

Definition isLower (c : ascii) : bool :=
  Nat.leb 97 (code c) && Nat.leb (code c) 122.

(** [[A-Za-z]] *)
Definition isLetter (c : ascii) : bool := isUpper c || isLower c.

Definition toLowerChar (c : ascii) : ascii :=
  if isUpper c then ascii_of_nat (code c + 32) else c.

Definition toUpperChar (c : ascii) : ascii :=
  if isLower c then ascii_of_nat (code c - 32) else c.

Fixpoint mapString (f : ascii -> ascii) (s : string) : string :=
  match s with
  | EmptyString => EmptyString
  | String c s' => String (f c) (mapString f s')
  end.

Definition toLowerCase : string -> string := mapString toLowerChar.
Definition toUpperCase : string -> string := mapString toUpperChar.

(** A string is truthy when it is not empty. *)
Definition truthyStr (s : string) : bool :=
  match s with EmptyString => false | _ => true end.

(** [s.includes(needle)] *)
Fixpoint includes (s needle : string) : bool :=
  String.prefix needle s ||
  match s with
  | EmptyString => false
  | String _ s' => includes s' needle
  end.

Fixpoint trimStart (s : string) : string :=
  match s with
  | EmptyString => EmptyString
  | String c s' => if isWhiteSpace c then trimStart s' else s
  end.

Fixpoint trimEnd (s : string) : string :=
  match s with
  | EmptyString => EmptyString
  | String c s' =>
      let t := trimEnd s' in
      if isWhiteSpace c && negb (truthyStr t) then EmptyString else String c t
  end.

(** [s.trim()] *)
Definition trim (s : string) : string := trimEnd (trimStart s).

(** [s.split(/\s+/)]: each maximal run of whitespace is one separator;
    a leading or trailing run leaves an empty first or last piece, and
    the empty string splits into one empty piece. [cur] is the piece
    being read, [inRun] says that the previous character was
    whitespace. *)
Fixpoint splitWsFrom (s cur : string) (inRun : bool) : list string :=
  match s with
  | EmptyString => [cur]
  | String c s' =>
      if isWhiteSpace c then
        if inRun then splitWsFrom s' EmptyString true
        else cur :: splitWsFrom s' EmptyString true
      else splitWsFrom s' (cur ++ String c EmptyString)%string false
  end.

Definition splitWs (s : string) : list string := splitWsFrom s EmptyString false.

(** [s.split(sep)] for a one-character separator. *)
Fixpoint splitCharFrom (sep : ascii) (s cur : string) : list string :=
  match s with
  | EmptyString => [cur]
  | String c s' =>
      if Ascii.eqb c sep then cur :: splitCharFrom sep s' EmptyString
      else splitCharFrom sep s' (cur ++ String c EmptyString)%string
  end.

Definition splitChar (sep : ascii) (s : string) : list string :=
  splitCharFrom sep s EmptyString.

(** [s.replace(/\n/g, ' ')] *)
Definition replaceNewlines : string -> string :=
  mapString (fun c => if Nat.eqb (code c) 10 then " "%char else c).

(** [s.padStart(2, '0')] *)
Definition padStart2 (s : string) : string :=
  match String.length s with
  | 0 => "00" ++ s
  | 1 => "0" ++ s
  | _ => s
  end%string.

(** The longest prefix of digits, and what follows it. *)
Fixpoint spanDigits (s : string) : string * string :=
  match s with
  | EmptyString => (EmptyString, EmptyString)
  | String c s' =>
      if isDigit c then let (d, r) := spanDigits s' in (String c d, r)
      else (EmptyString, s)
  end.

Definition digitVal (c : ascii) : Z := Z.of_nat (code c - 48).

(** The value of a string of digits, most significant first. *)
Fixpoint digitsValue (s : string) (acc : Z) : Z :=
  match s with
  | EmptyString => acc
  | String c s' => digitsValue s' (10 * acc + digitVal c)%Z
  end.

Definition allDigits (s : string) : bool :=
  truthyStr s && negb (truthyStr (snd (spanDigits s))).

(** *** Numbers *)

Local Open Scope float_scope.

Definition ofZ (z : Z) : float := PrimFloat.of_uint63 (Uint63.of_Z z).
Definition ofNat (n : nat) : float := ofZ (Z.of_nat n).

(** [x !== 0] on numbers. *)
Definition neqZero (x : float) : bool := negb (x =? 0).

(** A number is truthy unless it is [0], [-0] or [NaN]. *)
Definition truthyNum (x : float) : bool := negb (is_nan x) && negb (x =? 0).

(** [Math.min(a, b)]: [NaN] if either is; [-0] is below [+0]. *)
Definition Math_min (a b : float) : float :=
  if is_nan a || is_nan b then nan
  else if a <? b then a
  else if b <? a then b
  else match classify a with NZero => a | _ => b end.

(** The binary64 value nearest to [p / q], ties to even, for [p, q > 0].
    [ex] is the binary exponent of the quotient, [sh] the weight of the
    last kept bit (never below that of the subnormals). *)
Definition roundRatio (p q : Z) : float :=
  let e := (Z.log2 p - Z.log2 q)%Z in
  let below := if (0 <=? e)%Z then (p <? q * 2 ^ e)%Z else (p * 2 ^ (- e) <? q)%Z in
  let ex := if below then (e - 1)%Z else e in
  let sh := Z.max (ex - 52) (-1074) in
  let num := if (0 <=? sh)%Z then p else (p * 2 ^ (- sh))%Z in
  let den := if (0 <=? sh)%Z then (q * 2 ^ sh)%Z else q in
  let m := (num / den)%Z in
  let r := (num mod den)%Z in
  let up := ((den <? 2 * r) || ((den =? 2 * r) && Z.odd m))%Z in
  Z.ldexp (ofZ (if up then m + 1 else m)%Z) sh.

(** The number [m * 10 ^ e] for [m >= 0]. *)
Definition decimalValue (m e : Z) : float :=
  if (m =? 0)%Z then 0
  else if (0 <=? e)%Z then roundRatio (m * 10 ^ e) 1
  else roundRatio m (10 ^ (- e)).

(** The exponent part [[eE][+-]?\d+] at the head of [s], or [0] when [s]
    does not start with a complete one. *)
Definition exponentPart (s : string) : Z :=
  match s with
  | String c s' =>
      if Ascii.eqb c "e" || Ascii.eqb c "E" then
        match s' with
        | String sg s'' =>
            if Ascii.eqb sg "-" then (- digitsValue (fst (spanDigits s'')) 0)%Z
            else if Ascii.eqb sg "+" then digitsValue (fst (spanDigits s'')) 0
            else digitsValue (fst (spanDigits s')) 0
        | EmptyString => 0%Z
        end
      else 0%Z
  | EmptyString => 0%Z
  end.

(** An unsigned decimal literal at the head of [s]: [Infinity], or digits
    with an optional fraction and exponent, or a fraction alone. [None]
    when [s] does not start with one. *)
Definition unsignedLiteral (s : string) : option float :=
  if String.prefix "Infinity" s then Some infinity
  else
    let (ip, r) := spanDigits s in
    match r with
    | String c r' =>
        if Ascii.eqb c "." then
          let (fp, r'') := spanDigits r' in
          if truthyStr ip || truthyStr fp then
            Some (decimalValue (digitsValue (ip ++ fp)%string 0)
                    (exponentPart r'' - Z.of_nat (String.length fp)))
          else None
        else if truthyStr ip then
          Some (decimalValue (digitsValue ip 0) (exponentPart r))
        else None
    | EmptyString =>
        if truthyStr ip then Some (decimalValue (digitsValue ip 0) 0) else None
    end.

(** [parseFloat(s)]: leading whitespace is skipped, the longest prefix
    that is a decimal literal is converted, what follows it is ignored;
    [NaN] when there is no such prefix. *)
Definition parseFloat (s : string) : float :=
  match trimStart s with
  | String c r =>
      if Ascii.eqb c "-" then
        match unsignedLiteral r with Some x => - x | None => nan end
      else if Ascii.eqb c "+" then
        match unsignedLiteral r with Some x => x | None => nan end
      else
        match unsignedLiteral (String c r) with Some x => x | None => nan end
  | EmptyString => nan
  end.

(** [parseFloat(x.toString())] for a number [x]: the decimal string of a
    number reads back as that number, except that [-0] prints as ["0"]. *)
Definition parseFloatOfNumber (x : float) : float :=
  if x =? 0 then 0 else x.

(** A field typed [number | string]. *)
Inductive NumOrStr : Type :=
  | JNum (x : float)
  | JStr (s : string).

(** Truthiness of such a field. *)
Definition truthy (v : NumOrStr) : bool :=
  match v with
  | JNum x => truthyNum x
  | JStr s => truthyStr s
  end.

(** [parseFloat(v.toString())] *)
Definition parseFloatToString (v : NumOrStr) : float :=
  match v with
  | JNum x => parseFloatOfNumber x
  | JStr s => parseFloat s
  end.

(** [parseFloat(v?.toString() || "0")]: an absent field and an empty
    string read as ["0"]. *)
Definition parseFloatOrZero (v : option NumOrStr) : float :=
  match v with
  | None => parseFloat "0"
  | Some (JNum x) => parseFloatOfNumber x
  | Some (JStr s) => parseFloat (if truthyStr s then s else "0")
  end.

End JS.

(* ================================================================= *)
(** ** dateUtils.ts *)

Module DateUtils.
Import JS.

Local Open Scope Z_scope.

(** *** Date objects

    Every [Date] of this file is built at local midnight and read back
    with the local getters, so only its calendar day is observable: a
    date is Invalid Date or a day number counted from 1970-01-01. *)
Inductive JSDate : Type :=
  | InvalidDate
  | OnDay (day : Z).

(** Day number of the first day of month [m] (0 to 11) of year [y] in
    the proleptic Gregorian calendar. *)
Definition dayFromYearMonth (y m : Z) : Z :=
  let y' := if m <? 2 then y - 1 else y in
  let era := y' / 400 in
  let yoe := y' - era * 400 in
  let mp := if m <? 2 then m + 10 else m - 2 in
  let doy := (153 * mp + 2) / 5 in
  era * 146097 + (yoe * 365 + yoe / 4 - yoe / 100 + doy) - 719468.

(** Year, month (0 to 11) and day of the month of a day number. *)
Definition civilOfDay (z : Z) : Z * Z * Z :=
  let z' := z + 719468 in
  let era := z' / 146097 in
  let doe := z' - era * 146097 in
  let yoe := (doe - doe / 1460 + doe / 36524 - doe / 146096) / 365 in
  let doy := doe - (365 * yoe + yoe / 4 - yoe / 100) in
  let mp := (5 * doy + 2) / 153 in
  let d := doy - (153 * mp + 2) / 5 + 1 in
  let m := if mp <? 10 then mp + 2 else mp - 10 in
  (yoe + era * 400 + (if m <? 2 then 1 else 0), m, d).

(** [new Date(year, monthIndex, day)]: a year from 0 to 99 means
    1900 + year, months and days out of range carry over, and a time
    beyond 100,000,000 days from the epoch is Invalid Date. [None] is an
    argument that is [NaN]. *)
Definition newDate (year monthIndex day : option Z) : JSDate :=
  match year, monthIndex, day with
  | Some y, Some m, Some d =>
      let yr := if (0 <=? y) && (y <=? 99) then 1900 + y else y in
      let t := dayFromYearMonth (yr + m / 12) (m mod 12) + d - 1 in
      if Z.abs t <=? 100000000 then OnDay t else InvalidDate
  | _, _, _ => InvalidDate
  end.

(** [isNaN(date.getTime())] *)
Definition isInvalid (d : JSDate) : bool :=
  match d with InvalidDate => true | OnDay _ => false end.

(** The decimal string of an integral number. *)
Definition numberToString (z : Z) : string :=
  NilEmpty.string_of_int (Z.to_int z).

Definition formatDate (date : JSDate) : string :=
  match date with
  | InvalidDate => "NaN/NaN/NaN"
  | OnDay t =>
      let '(y, m, d) := civilOfDay t in
      let month := padStart2 (numberToString (m + 1)) in
      let day := padStart2 (numberToString d) in
      (month ++ "/" ++ day ++ "/" ++ numberToString y)%string
  end.

(** *** The fixed formats *)

(** The regular expressions of [dateFormats] are anchored sequences of
    [\d] and literal characters. *)
Inductive Pat : Type :=
  | PDigit
  | PChar (c : ascii).

Fixpoint regexTest (p : list Pat) (s : string) : bool :=
  match p, s with
  | [], EmptyString => true
  | PDigit :: p', String c s' => isDigit c && regexTest p' s'
  | PChar a :: p', String c s' => Ascii.eqb a c && regexTest p' s'
  | _, _ => false
  end.

Definition d2 : list Pat := [PDigit; PDigit].
Definition d4 : list Pat := [PDigit; PDigit; PDigit; PDigit].
Definition lit (c : ascii) : list Pat := [PChar c].

Definition dateFormats : list (list Pat * string) :=
  [ (d4 ++ lit "-" ++ d2 ++ lit "-" ++ d2 ++ lit " " ++ d2 ++ lit ":" ++ d2 ++ lit ":" ++ d2,
     "YYYY-MM-DD HH:mm:ss");
    (d4 ++ lit "-" ++ d2 ++ lit "-" ++ d2, "YYYY-MM-DD");
    (d2 ++ lit "/" ++ d2 ++ lit "/" ++ d4, "MM/DD/YYYY");
    (d2 ++ lit "/" ++ d2 ++ lit "/" ++ d2, "MM/DD/YY");
    (d2 ++ lit "/" ++ d2 ++ lit "/" ++ d4, "DD/MM/YYYY");
    (d2 ++ lit "-" ++ d2 ++ lit "-" ++ d4, "MM-DD-YYYY");
    (d2 ++ lit "-" ++ d2 ++ lit "-" ++ d4, "DD-MM-YYYY") ].

(** [Number(piece)] on the pieces [parseDate] is given: a string of
    digits is its value and the empty string is 0; any other piece, which
    the regular expressions exclude, is read as [NaN]. *)
Definition Number (s : string) : option Z :=
  if negb (truthyStr s) then Some 0
  else if allDigits s then Some (digitsValue s 0) else None.

(** [const [a, b, c] = pieces.map(Number)]: a missing element is
    [undefined], which [new Date] reads as [NaN]. *)
Definition field (pieces : list string) (i : nat) : option Z :=
  match nth_error pieces i with
  | Some s => Number s
  | None => None
  end.

Definition minus1 (m : option Z) : option Z := option_map (fun x => x - 1) m.

(** [parseDate(dateStr, format)]: [None] is [null]. *)
Definition parseDate (dateStr format : string) : option JSDate :=
  if String.eqb format "YYYY-MM-DD HH:mm:ss" then
    let parts := splitChar " " dateStr in
    let pieces := splitChar "-" (nth 0 parts "") in
    Some (newDate (field pieces 0) (minus1 (field pieces 1)) (field pieces 2))
  else if String.eqb format "YYYY-MM-DD" then
    let pieces := splitChar "-" dateStr in
    Some (newDate (field pieces 0) (minus1 (field pieces 1)) (field pieces 2))
  else if String.eqb format "MM/DD/YYYY" then
    let pieces := splitChar "/" dateStr in
    Some (newDate (field pieces 2) (minus1 (field pieces 0)) (field pieces 1))
  else if String.eqb format "MM/DD/YY" then
    let pieces := splitChar "/" dateStr in
    let fullYear :=
      option_map (fun y => if y <? 50 then 2000 + y else 1900 + y) (field pieces 2) in
    Some (newDate fullYear (minus1 (field pieces 0)) (field pieces 1))
  else if String.eqb format "DD/MM/YYYY" then
    let pieces := splitChar "/" dateStr in
    Some (newDate (field pieces 2) (minus1 (field pieces 1)) (field pieces 0))
  else if String.eqb format "MM-DD-YYYY" then
    let pieces := splitChar "-" dateStr in
    Some (newDate (field pieces 2) (minus1 (field pieces 0)) (field pieces 1))
  else if String.eqb format "DD-MM-YYYY" then
    let pieces := splitChar "-" dateStr in
    Some (newDate (field pieces 2) (minus1 (field pieces 1)) (field pieces 0))
  else None.

(** The loop over [dateFormats]: the first entry whose expression
    matches and whose parse is not [null] ends it. The format that was
    used is returned with the date. *)
Fixpoint tryFormats (fs : list (list Pat * string)) (s : string)
  : option (string * JSDate) :=
  match fs with
  | [] => None
  | (regex, format) :: fs' =>
      if regexTest regex s then
        match parseDate s format with
        | Some parsedDate => Some (format, parsedDate)
        | None => tryFormats fs' s
        end
      else tryFormats fs' s
  end.

(** *** Month names *)

Definition months : list string :=
  [ "January"; "February"; "March"; "April"; "May"; "June";
    "July"; "August"; "September"; "October"; "November"; "December" ].

Definition shortMonths : list string :=
  [ "Jan"; "Feb"; "Mar"; "Apr"; "May"; "Jun";
    "Jul"; "Aug"; "Sep"; "Oct"; "Nov"; "Dec" ].

(** [xs.findIndex(p)], with [-1] when no element satisfies [p]. *)
Fixpoint findIndexFrom {A : Type} (p : A -> bool) (xs : list A) (i : Z) : Z :=
  match xs with
  | [] => -1
  | x :: xs' => if p x then i else findIndexFrom p xs' (i + 1)
  end.

Definition getMonthIndex (monthName : string) : Z :=
  let same := fun month => String.eqb (toLowerCase month) (toLowerCase monthName) in
  let fullIndex := findIndexFrom same months 0 in
  if negb (fullIndex =? -1) then fullIndex
  else findIndexFrom same shortMonths 0.

Fixpoint spanWhile (p : ascii -> bool) (s : string) : string * string :=
  match s with
  | EmptyString => (EmptyString, EmptyString)
  | String c s' =>
      if p c then let (a, r) := spanWhile p s' in (String c a, r)
      else (EmptyString, s)
  end.

(** [s.match(/^([A-Za-z]+)\s+(\d{1,2}),\s+(\d{4})$/)], or with
    [[A-Za-z]{3}] for the name when [three] is set: the three groups. *)
Definition matchMonthName (three : bool) (s : string)
  : option (string * string * string) :=
  let (name, r1) := spanWhile isLetter s in
  let (ws1, r2) := spanWhile isWhiteSpace r1 in
  let (day, r3) := spanDigits r2 in
  match r3 with
  | String c r4 =>
      let (ws2, r5) := spanWhile isWhiteSpace r4 in
      let (year, r6) := spanDigits r5 in
      if (if three then Nat.eqb (String.length name) 3 else truthyStr name)
         && truthyStr ws1
         && (Nat.leb 1 (String.length day) && Nat.leb (String.length day) 2)
         && Ascii.eqb c ","
         && truthyStr ws2
         && Nat.eqb (String.length year) 4
         && negb (truthyStr r6)
      then Some (name, day, year)
      else None
  | EmptyString => None
  end.

Definition monthNameFormats : list bool := [false; true].

(** The loop over [monthNameFormats]. *)
Fixpoint tryMonthNames (rs : list bool) (s : string) : option JSDate :=
  match rs with
  | [] => None
  | three :: rs' =>
      match matchMonthName three s with
      | Some (monthName, day, year) =>
          let monthIndex := getMonthIndex monthName in
          if negb (monthIndex =? -1) then
            let date := newDate (Some (digitsValue year 0)) (Some monthIndex)
                                (Some (digitsValue day 0)) in
            if negb (isInvalid date) then Some date else tryMonthNames rs' s
          else tryMonthNames rs' s
      | None => tryMonthNames rs' s
      end
  end.

(** *** standardizeDate *)

(** How an evaluation ends: with a value, or by throwing. *)
Inductive Completion (A : Type) : Type :=
  | Normal (a : A)
  | Throw.
Arguments Normal {A} a.
Arguments Throw {A}.

(** [new Date(string)] is left to the host by the language: the strings
    it accepts beyond the ISO format are implementation-defined. The
    host's parser is an interface of the development; it may yield a
    date, Invalid Date, or end abruptly. *)
Class Host : Type := { newDateOfString : string -> Completion JSDate }.

Section Standardize.
Context {host : Host}.

(** The body of the [try] block. *)
Definition standardizeBody (dateStr : string) : Completion string :=
  let trimmedDateStr := trim dateStr in
  match tryFormats dateFormats trimmedDateStr with
  | Some (_, parsedDate) => Normal (formatDate parsedDate)
  | None =>
      match newDateOfString trimmedDateStr with
      | Throw => Throw
      | Normal parsedDate =>
          if negb (isInvalid parsedDate) then Normal (formatDate parsedDate)
          else
            match tryMonthNames monthNameFormats trimmedDateStr with
            | Some date => Normal (formatDate date)
            | None => Normal trimmedDateStr
            end
      end
  end.

(** [standardizeDate(dateStr)]; [None] is [null] or [undefined]. *)
Definition standardizeDate (dateStr : option string) : string :=
  match dateStr with
  | None => ""
  | Some s =>
      if negb (truthyStr s) || String.eqb s "NULL" then ""
      else
        match standardizeBody s with
        | Normal r => r
        | Throw => s
        end
  end.

End Standardize.

Definition datesEqual (date1 date2 : string) : bool :=
  if negb (truthyStr date1) || negb (truthyStr date2) then
    negb (truthyStr date1) && negb (truthyStr date2)
  else String.eqb date1 date2.

End DateUtils.

(* ================================================================= *)
(** ** reconciliation.ts *)

Module Reconciliation.
Import JS DateUtils.

Local Open Scope float_scope.

(** *** types.ts *)

Record LineItem : Type := {
  productName : option string;
  quantity : option NumOrStr;
  unitPrice : option NumOrStr;
  totalPrice : option NumOrStr;
  price : option NumOrStr;
  deliveryDate : option string
}.

Record InvoiceData : Type := {
  poNumber : option string;
  invoiceDate : option string;
  lineItems : option (list LineItem)
}.

Record PurchaseOrderRecord : Type := {
  PurchaseOrderID : string;
  PurchaseQty : NumOrStr;
  PurchasePrice : NumOrStr;
  DateRequired : string;
  PurchaseSupplierItem : string;
  PurchaseSupplierDescription : string
}.

Inductive SourceTag : Type := INVOICE | PO.
Inductive StatusTag : Type := MATCH | DISCREPANCY | NO_MATCH.

(** A flag that is [None] is absent from the row. *)
Record ReconciliationResult : Type := {
  Source : SourceTag;
  PO_num : string;
  Item_Description : string;
  Qty : float;
  Unit_Price : float;
  Total_Price : float;
  Date : string;
  Status : StatusTag;
  _qty_match : option bool;
  _price_match : option bool;
  _date_match : option bool
}.

Record ReconciliationSummary : Type := {
  totalItems : nat;
  matches : nat;
  discrepancies : nat;
  noMatches : nat
}.

(** An option that is [None] is not given by the caller. *)
Record MatchingOptions : Type := {
  quantityTolerance : option float;
  priceTolerance : option float;
  minKeywordMatches : option float;
  requireDateMatch : option bool
}.

(** [Required<MatchingOptions>] *)
Record Opts : Type := {
  optQuantityTolerance : float;
  optPriceTolerance : float;
  optMinKeywordMatches : float;
  optRequireDateMatch : bool
}.

Definition noOptions : MatchingOptions :=
  {| quantityTolerance := None; priceTolerance := None;
     minKeywordMatches := None; requireDateMatch := None |}.

Definition orDefault {A : Type} (o : option A) (d : A) : A :=
  match o with Some a => a | None => d end.

(** The defaults, overridden by the options that are given. *)
Definition withDefaults (options : MatchingOptions) : Opts :=
  {| optQuantityTolerance := orDefault (quantityTolerance options) 0.01;
     optPriceTolerance := orDefault (priceTolerance options) 0.01;
     optMinKeywordMatches := orDefault (minKeywordMatches options) 3;
     optRequireDateMatch := orDefault (requireDateMatch options) false |}.

(** [s || ""] *)
Definition orEmpty (s : option string) : string := orDefault s "".

(** *** Quantity and unit price of a line item *)

Definition invoiceQty (item : LineItem) : float :=
  parseFloatOrZero (quantity item).

(** [v && v !== 0]: the field when the test passes. A string is never
    strictly equal to the number 0. *)
Definition nonZero (v : option NumOrStr) : option NumOrStr :=
  match v with
  | Some (JNum x) => if truthyNum x && neqZero x then v else None
  | Some (JStr s) => if truthyStr s then v else None
  | None => None
  end.

Definition invoicePrice (item : LineItem) : float :=
  match nonZero (unitPrice item) with
  | Some u => parseFloatToString u
  | None =>
      match nonZero (totalPrice item) with
      | Some t =>
          if neqZero (invoiceQty item)
          then parseFloatToString t / invoiceQty item
          else parseFloatOrZero (price item)
      | None => parseFloatOrZero (price item)
      end
  end.

(** *** Candidate selection *)

Definition matchingPOs (poNumber : string) (poRecords : list PurchaseOrderRecord)
  : list PurchaseOrderRecord :=
  filter (fun po => String.eqb (PurchaseOrderID po) poNumber) poRecords.

Definition itemCodeMatch (itemName : string) (po : PurchaseOrderRecord) : bool :=
  truthyStr (PurchaseSupplierItem po) &&
  includes (toLowerCase (PurchaseSupplierItem po)) (toLowerCase itemName).

Definition descriptionMatch (itemName : string) (po : PurchaseOrderRecord) : bool :=
  truthyStr (PurchaseSupplierDescription po) &&
  includes (toLowerCase (PurchaseSupplierDescription po)) (toLowerCase itemName).

Definition itemKeywords (itemName : string) : list string :=
  filter (fun keyword => Nat.ltb 0 (String.length keyword))
         (splitWs (toUpperCase itemName)).

(** The [reduce] that counts the keywords found in the description or in
    the item code. The count is a small integer, kept as a [nat]. *)
Definition keywordMatches (keywords : list string) (poRow : PurchaseOrderRecord) : nat :=
  let poDesc := toUpperCase (PurchaseSupplierDescription poRow) in
  let poItem := toUpperCase (PurchaseSupplierItem poRow) in
  fold_left
    (fun count keyword =>
       (count + (if includes poDesc keyword || includes poItem keyword then 1 else 0))%nat)
    keywords 0%nat.

Definition minMatches (opts : Opts) (keywords : list string) : float :=
  Math_min (optMinKeywordMatches opts) (ofNat (Nat.div (List.length keywords) 2)).

(** [keywordMatches >= minMatches] *)
Definition keywordQualifies (opts : Opts) (keywords : list string)
           (poRow : PurchaseOrderRecord) : bool :=
  minMatches opts keywords <=? ofNat (keywordMatches keywords poRow).

(** The loop that pushes the qualifying rows on [candidateRows]. *)
Definition candidateRows (opts : Opts) (keywords : list string)
           (pos : list PurchaseOrderRecord) : list PurchaseOrderRecord :=
  fold_left
    (fun rows poRow => if keywordQualifies opts keywords poRow then rows ++ [poRow] else rows)
    pos [].

Definition isEmpty {A : Type} (l : list A) : bool := Nat.eqb (List.length l) 0.

Definition poCandidates (opts : Opts) (pos : list PurchaseOrderRecord)
           (itemName : string) : list PurchaseOrderRecord :=
  let c1 := filter (itemCodeMatch itemName) pos in
  let c2 := if isEmpty c1 then filter (descriptionMatch itemName) pos else c1 in
  if isEmpty c2 then
    let rows := candidateRows opts (itemKeywords itemName) pos in
    if negb (isEmpty rows) then rows else c2
  else c2.

(** *** The best candidate *)

Definition poQtyOf (po : PurchaseOrderRecord) : float :=
  parseFloatToString (PurchaseQty po).

Definition poPriceOf (po : PurchaseOrderRecord) : float :=
  parseFloatToString (PurchasePrice po).

Definition qtyWithin (opts : Opts) (qty : float) (po : PurchaseOrderRecord) : bool :=
  abs (poQtyOf po - qty) <? optQuantityTolerance opts.

Definition priceWithin (opts : Opts) (prc : float) (po : PurchaseOrderRecord) : bool :=
  abs (poPriceOf po - prc) <? optPriceTolerance opts.

(** [None] is [null]. *)
Definition poMatch (opts : Opts) (qty prc : float)
           (candidates : list PurchaseOrderRecord) : option PurchaseOrderRecord :=
  if negb (isEmpty candidates) then
    let exactMatches :=
      filter (fun po => qtyWithin opts qty po && priceWithin opts prc po) candidates in
    if negb (isEmpty exactMatches) then nth_error exactMatches 0
    else
      let qtyMatches := filter (qtyWithin opts qty) candidates in
      if negb (isEmpty qtyMatches) then nth_error qtyMatches 0
      else
        let priceMatches := filter (priceWithin opts prc) candidates in
        if negb (isEmpty priceMatches) then nth_error priceMatches 0
        else nth_error candidates 0
  else None.

(** *** Rows *)

Definition statusOf (qtyMatch priceMatch dateMatch : bool) : StatusTag :=
  if qtyMatch && priceMatch && dateMatch then MATCH else DISCREPANCY.

(** [itemDeliveryDate || invoiceData.invoiceDate || ""] *)
Definition itemDate (invoiceData : InvoiceData) (item : LineItem) : string :=
  let itemDeliveryDate := orEmpty (deliveryDate item) in
  if truthyStr itemDeliveryDate then itemDeliveryDate
  else orEmpty (invoiceDate invoiceData).

Section Engine.
Context {host : Host}.

(** The rows one turn of the loop pushes. *)
Definition itemRows (opts : Opts) (invoiceData : InvoiceData)
           (pos : list PurchaseOrderRecord) (item : LineItem)
  : list ReconciliationResult :=
  let poNumber := orEmpty (poNumber invoiceData) in
  let itemName := orEmpty (productName item) in
  let invoiceQty := invoiceQty item in
  let invoicePrice := invoicePrice item in
  match poMatch opts invoiceQty invoicePrice (poCandidates opts pos itemName) with
  | Some poMatch =>
      let poQty := poQtyOf poMatch in
      let poPrice := poPriceOf poMatch in
      let qtyMatch := abs (invoiceQty - poQty) <? optQuantityTolerance opts in
      let priceMatch := abs (invoicePrice - poPrice) <? optPriceTolerance opts in
      let invoiceDateStd := standardizeDate (Some (itemDate invoiceData item)) in
      let poDateStd := standardizeDate (Some (DateRequired poMatch)) in
      let dateMatch :=
        if optRequireDateMatch opts then datesEqual invoiceDateStd poDateStd else true in
      let invoiceResult :=
        {| Source := INVOICE;
           PO_num := poNumber;
           Item_Description := itemName;
           Qty := invoiceQty;
           Unit_Price := invoicePrice;
           Total_Price := invoiceQty * invoicePrice;
           Date := invoiceDateStd;
           Status := statusOf qtyMatch priceMatch dateMatch;
           _qty_match := Some qtyMatch;
           _price_match := Some priceMatch;
           _date_match := Some dateMatch |} in
      let poResult :=
        {| Source := PO;
           PO_num := PurchaseOrderID poMatch;
           Item_Description :=
             (PurchaseSupplierItem poMatch ++ " - " ++
              replaceNewlines (PurchaseSupplierDescription poMatch))%string;
           Qty := poQty;
           Unit_Price := poPrice;
           Total_Price := poQty * poPrice;
           Date := poDateStd;
           Status := statusOf qtyMatch priceMatch dateMatch;
           _qty_match := Some qtyMatch;
           _price_match := Some priceMatch;
           _date_match := Some dateMatch |} in
      [invoiceResult; poResult]
  | None =>
      let invoiceResult :=
        {| Source := INVOICE;
           PO_num := poNumber;
           Item_Description := itemName;
           Qty := invoiceQty;
           Unit_Price := invoicePrice;
           Total_Price := invoiceQty * invoicePrice;
           Date := standardizeDate (Some (itemDate invoiceData item));
           Status := NO_MATCH;
           _qty_match := None;
           _price_match := None;
           _date_match := None |} in
      [invoiceResult]
  end.

(** The [for] loop: [results] is [reconciliationResults] so far. *)
Definition reconcileLoop (opts : Opts) (invoiceData : InvoiceData)
           (pos : list PurchaseOrderRecord) (items : list LineItem)
           (results : list ReconciliationResult) : list ReconciliationResult :=
  fold_left (fun acc item => acc ++ itemRows opts invoiceData pos item) items results.

Definition reconcileInvoiceData (invoiceData : InvoiceData)
           (poRecords : list PurchaseOrderRecord) (options : MatchingOptions)
  : list ReconciliationResult :=
  let opts := withDefaults options in
  if isEmpty poRecords then []
  else
    let lineItems := orDefault (lineItems invoiceData) [] in
    let pos := matchingPOs (orEmpty (poNumber invoiceData)) poRecords in
    reconcileLoop opts invoiceData pos lineItems [].

End Engine.

Definition isInvoiceRow (r : ReconciliationResult) : bool :=
  match Source r with INVOICE => true | PO => false end.

Definition hasStatus (s : StatusTag) (r : ReconciliationResult) : bool :=
  match Status r, s with
  | MATCH, MATCH | DISCREPANCY, DISCREPANCY | NO_MATCH, NO_MATCH => true
  | _, _ => false
  end.

Definition generateReconciliationSummary (results : list ReconciliationResult)
  : ReconciliationSummary :=
  let invoiceRows := filter isInvoiceRow results in
  {| totalItems := List.length invoiceRows;
     matches := List.length (filter (hasStatus MATCH) invoiceRows);
     discrepancies := List.length (filter (hasStatus DISCREPANCY) invoiceRows);
     noMatches := List.length (filter (hasStatus NO_MATCH) invoiceRows) |}.

End Reconciliation.

(* ================================================================= *)
(** ** reconciliation.ts: the display filter *)

Module Display.
Import JS DateUtils Reconciliation.

(** [filterDisplayResults(results)]: each row is rebuilt without its
    three helper fields. *)
Definition filterDisplayResults (results : list ReconciliationResult)
  : list ReconciliationResult :=
  List.map
    (fun result =>
       {| Source := Source result;
          PO_num := PO_num result;
          Item_Description := Item_Description result;
          Qty := Qty result;
          Unit_Price := Unit_Price result;
          Total_Price := Total_Price result;
          Date := Date result;
          Status := Status result;
          _qty_match := None;
          _price_match := None;
          _date_match := None |})
    results.

(** The eight columns that are displayed and exported. *)
Definition displayed (r : ReconciliationResult)
  : SourceTag * string * string * float * float * float * string * StatusTag :=
  (Source r, PO_num r, Item_Description r, Qty r, Unit_Price r, Total_Price r,
   Date r, Status r).

Definition hasNoFlag (r : ReconciliationResult) : bool :=
  match _qty_match r, _price_match r, _date_match r with
  | None, None, None => true
  | _, _, _ => false
  end.

Definition hasAllFlags (r : ReconciliationResult) : bool :=
  match _qty_match r, _price_match r, _date_match r with
  | Some _, Some _, Some _ => true
  | _, _, _ => false
  end.

Definition isPORow (r : ReconciliationResult) : bool := negb (isInvoiceRow r).

End Display.

(* ================================================================= *)
(** ** reconciliation.ts: the validators *)

Module Validators.
Import JS DateUtils Reconciliation.

(** *** Values of type [any]

    The validators are given parsed JSON: a value is [undefined],
    [null], a boolean, a number, a string, an array or a plain object.
    An object is its own properties, first binding of a key first; it
    holds data only, so none of its properties is a function. *)
Inductive Any : Type :=
  | AUndefined
  | ANull
  | ABool (b : bool)
  | ANum (x : float)
  | AStr (s : string)
  | AArr (elems : list Any)
  | AObj (props : list (string * Any)).

Fixpoint lookup (key : string) (props : list (string * Any)) : option Any :=
  match props with
  | [] => None
  | (k, v) :: rest => if String.eqb k key then Some v else lookup key rest
  end.

(** [v.key] for a value that is neither [null] nor [undefined] and a
    key among the field names the validators read: an object gives its
    property, and no array, string, number or boolean has one of those
    names. *)
Definition get (v : Any) (key : string) : Any :=
  match v with
  | AObj props => match lookup key props with Some x => x | None => AUndefined end
  | _ => AUndefined
  end.

(** [typeof v] *)
Definition typeof (v : Any) : string :=
  match v with
  | AUndefined => "undefined"
  | ANull => "object"
  | ABool _ => "boolean"
  | ANum _ => "number"
  | AStr _ => "string"
  | AArr _ => "object"
  | AObj _ => "object"
  end.

(** Truthiness: [!v] is its negation. *)
Definition truthyAny (v : Any) : bool :=
  match v with
  | AUndefined | ANull => false
  | ABool b => b
  | ANum x => truthyNum x
  | AStr s => truthyStr s
  | AArr _ | AObj _ => true
  end.

(** [Array.isArray(v)] *)
Definition isArray (v : Any) : bool :=
  match v with AArr _ => true | _ => false end.

(** [v === undefined || v === null] *)
Definition isNullish (v : Any) : bool :=
  match v with AUndefined | ANull => true | _ => false end.

(** Whether converting [v] to a string throws. A plain object converts
    through [Object.prototype.toString] unless a property of its own
    named [toString] hides it: that property is data, not a function,
    and the [valueOf] that is tried next returns the object, so the
    conversion ends in a [TypeError]. An array converts every element
    other than [null] and [undefined]. *)
Fixpoint toStringThrows (v : Any) : bool :=
  match v with
  | AArr elems => existsb toStringThrows elems
  | AObj props =>
      match lookup "toString" props with Some _ => true | None => false end
  | _ => false
  end.

(** [parseFloat(v)] when the conversion of [v] to a string does not
    throw. An array converts to its elements joined by commas, [null]
    and [undefined] as the empty string; what [parseFloat] reads of that
    is what it reads of the first element, since a comma ends every
    literal. *)
Fixpoint parseFloatText (v : Any) : float :=
  match v with
  | AUndefined => parseFloat "undefined"
  | ANull => parseFloat "null"
  | ABool b => parseFloat (if b then "true" else "false")
  | ANum x => parseFloatOfNumber x
  | AStr s => parseFloat s
  | AArr [] => parseFloat ""
  | AArr (e :: _) =>
      match e with
      | AUndefined | ANull => parseFloat ""
      | _ => parseFloatText e
      end
  | AObj _ => parseFloat "[object Object]"
  end.

(** [isNaN(parseFloat(v))] *)
Definition parsesToNaN (v : Any) : Completion bool :=
  if toStringThrows v then Throw else Normal (is_nan (parseFloatText v)).

(** *** validateInvoiceData *)

(** The loop over [invoiceData.lineItems]. *)
Fixpoint validateLineItems (items : list Any) : Completion bool :=
  match items with
  | [] => Normal true
  | item :: rest =>
      if negb (truthyAny item) || negb (String.eqb (typeof item) "object") then
        Normal false
      else if negb (truthyAny (get item "productName"))
              || negb (String.eqb (typeof (get item "productName")) "string") then
        Normal false
      else if isNullish (get item "quantity") then Normal false
      else
        match parsesToNaN (get item "quantity") with
        | Throw => Throw
        | Normal true => Normal false
        | Normal false => validateLineItems rest
        end
  end.

Definition validateInvoiceData (invoiceData : Any) : Completion bool :=
  if negb (truthyAny invoiceData)
     || negb (String.eqb (typeof invoiceData) "object") then
    Normal false
  else if negb (truthyAny (get invoiceData "poNumber"))
          || negb (String.eqb (typeof (get invoiceData "poNumber")) "string") then
    Normal false
  else
    match get invoiceData "lineItems" with
    | AArr items => validateLineItems items
    | _ => Normal false
    end.

(** *** validatePORecords *)

Definition requiredFields : list string :=
  [ "PurchaseOrderID"; "PurchaseQty"; "PurchasePrice"; "DateRequired";
    "PurchaseSupplierItem"; "PurchaseSupplierDescription" ].

(** The loop over [requiredFields]: whether some field is missing. *)
Fixpoint someFieldMissing (record : Any) (fields : list string) : bool :=
  match fields with
  | [] => false
  | field :: rest =>
      if isNullish (get record field) then true else someFieldMissing record rest
  end.

(** The loop over [poRecords]. *)
Fixpoint validateRecords (records : list Any) : Completion bool :=
  match records with
  | [] => Normal true
  | record :: rest =>
      if negb (truthyAny record) || negb (String.eqb (typeof record) "object") then
        Normal false
      else if someFieldMissing record requiredFields then Normal false
      else
        match parsesToNaN (get record "PurchaseQty") with
        | Throw => Throw
        | Normal true => Normal false
        | Normal false =>
            match parsesToNaN (get record "PurchasePrice") with
            | Throw => Throw
            | Normal true => Normal false
            | Normal false => validateRecords rest
            end
        end
  end.

Definition validatePORecords (poRecords : Any) : Completion bool :=
  match poRecords with
  | AArr records => validateRecords records
  | _ => Normal false
  end.

(** *** The typed records as values *)

Definition ofNumOrStr (v : NumOrStr) : Any :=
  match v with JNum x => ANum x | JStr s => AStr s end.

(** A field that is not given is [undefined]. *)
Definition ofOption {A : Type} (f : A -> Any) (o : option A) : Any :=
  match o with Some a => f a | None => AUndefined end.

Definition ofLineItem (item : LineItem) : Any :=
  AObj [ ("productName", ofOption AStr (productName item));
         ("quantity", ofOption ofNumOrStr (quantity item));
         ("unitPrice", ofOption ofNumOrStr (unitPrice item));
         ("totalPrice", ofOption ofNumOrStr (totalPrice item));
         ("price", ofOption ofNumOrStr (price item));
         ("deliveryDate", ofOption AStr (deliveryDate item)) ].

Definition ofInvoiceData (invoiceData : InvoiceData) : Any :=
  AObj [ ("poNumber", ofOption AStr (poNumber invoiceData));
         ("invoiceDate", ofOption AStr (invoiceDate invoiceData));
         ("lineItems",
          ofOption (fun items => AArr (List.map ofLineItem items))
                   (lineItems invoiceData)) ].

Definition ofPORecord (po : PurchaseOrderRecord) : Any :=
  AObj [ ("PurchaseOrderID", AStr (PurchaseOrderID po));
         ("PurchaseQty", ofNumOrStr (PurchaseQty po));
         ("PurchasePrice", ofNumOrStr (PurchasePrice po));
         ("DateRequired", AStr (DateRequired po));
         ("PurchaseSupplierItem", AStr (PurchaseSupplierItem po));
         ("PurchaseSupplierDescription", AStr (PurchaseSupplierDescription po)) ].

(** A line item with a product name that is not empty and a quantity
    that reads as a number. *)
Definition wellFormedItem (item : LineItem) : Prop :=
  (exists name, productName item = Some name /\ name <> "")
  /\ (exists q, quantity item = Some q /\ is_nan (parseFloatToString q) = false).

Definition wellFormedInvoice (invoiceData : InvoiceData) : Prop :=
  (exists po, poNumber invoiceData = Some po /\ po <> "")
  /\ (exists items, lineItems invoiceData = Some items /\ Forall wellFormedItem items).

(** What the loop demands of an element of [lineItems]: an object with
    a non-empty string as product name and a quantity that is present,
    converts to a string and reads as a number. *)
Definition acceptableItem (item : Any) : Prop :=
  exists props name q,
    item = AObj props
    /\ lookup "productName" props = Some (AStr name) /\ name <> ""
    /\ lookup "quantity" props = Some q /\ isNullish q = false
    /\ parsesToNaN q = Normal false.

(** What the loop demands of a purchase-order record: an object with
    the six fields present, and a quantity and a price that read as
    numbers. *)
Definition acceptableRecord (record : Any) : Prop :=
  exists props,
    record = AObj props
    /\ (forall field, In field requiredFields ->
          exists v, lookup field props = Some v /\ isNullish v = false)
    /\ parsesToNaN (get record "PurchaseQty") = Normal false
    /\ parsesToNaN (get record "PurchasePrice") = Normal false.

(** Two validations in sequence: the second is run only when the first
    answered [true]. *)
Definition andThen (first rest : Completion bool) : Completion bool :=
  match first with
  | Normal true => rest
  | Normal false => Normal false
  | Throw => Throw
  end.

(** A record whose quantity and price read as numbers. *)
Definition numericRecord (po : PurchaseOrderRecord) : Prop :=
  is_nan (poQtyOf po) = false /\ is_nan (poPriceOf po) = false.

End Validators.

(* ================================================================= *)
(** ** Sample data *)

Module Samples.
Import JS DateUtils Reconciliation.

Local Open Scope float_scope.

(** A host whose parser recognises no string. *)
Definition silentHost : Host :=
  {| newDateOfString := fun _ => Normal InvalidDate |}.

(** A host whose parser ends abruptly on every string. *)
Definition throwingHost : Host :=
  {| newDateOfString := fun _ => Throw |}.

Definition mkItem (name : string) (qty : option NumOrStr) (unit : option NumOrStr)
  : LineItem :=
  {| productName := Some name; quantity := qty; unitPrice := unit;
     totalPrice := None; price := None; deliveryDate := None |}.

Definition mkInvoice (po : string) (items : list LineItem) : InvoiceData :=
  {| poNumber := Some po; invoiceDate := None; lineItems := Some items |}.

Definition mkPO (id : string) (qty prc : float) (date item desc : string)
  : PurchaseOrderRecord :=
  {| PurchaseOrderID := id; PurchaseQty := JNum qty; PurchasePrice := JNum prc;
     DateRequired := date; PurchaseSupplierItem := item;
     PurchaseSupplierDescription := desc |}.

Definition widgetItem : LineItem := mkItem "Widget A" (Some (JNum 10)) (Some (JNum 5)).
Definition widgetInvoice : InvoiceData := mkInvoice "PO1" [widgetItem].
Definition widgetPO : PurchaseOrderRecord :=
  mkPO "PO1" 10 5 "2025-01-01" "WIDGET-A" "Widget A".
Definition widgetPO8 : PurchaseOrderRecord :=
  mkPO "PO1" 8 5 "2025-01-01" "WIDGET-A" "Widget A".

(** Two records of one order: the first has no item code. *)
Definition bareCodePO : PurchaseOrderRecord := mkPO "PO1" 1 1 "" "" "D1".
Definition codedPO : PurchaseOrderRecord := mkPO "PO1" 2 2 "" "ABC" "D2".

Definition namelessItem : LineItem := mkItem "" (Some (JNum 1)) (Some (JNum 1)).

(** A quantity that is not a number. *)
Definition wordQtyItem : LineItem := mkItem "Bolt" (Some (JStr "abc")) (Some (JNum 5)).

(** A unit price given as the string ["0"], with a total price. *)
Definition zeroStringPriceItem : LineItem :=
  {| productName := Some "Bolt"; quantity := Some (JNum 2);
     unitPrice := Some (JStr "0"); totalPrice := Some (JNum 10);
     price := None; deliveryDate := None |}.

Definition invoiceRow (st : StatusTag) : ReconciliationResult :=
  {| Source := INVOICE; PO_num := "PO1"; Item_Description := "x"; Qty := 1;
     Unit_Price := 1; Total_Price := 1; Date := ""; Status := st;
     _qty_match := None; _price_match := None; _date_match := None |}.

Definition poRow (st : StatusTag) : ReconciliationResult :=
  {| Source := PO; PO_num := "PO1"; Item_Description := "x"; Qty := 1;
     Unit_Price := 1; Total_Price := 1; Date := ""; Status := st;
     _qty_match := None; _price_match := None; _date_match := None |}.

End Samples.

(* ================================================================= *)
(** ** The stages in the words of the specification

    The source computes each stage with filters and tests on lengths;
    the specification speaks of the first candidate that satisfies a
    rule and of the first non-empty stage. These definitions say the
    latter; the properties below relate them to the source. *)

Module Wording.
Import JS DateUtils Reconciliation.

(** *** The best candidate *)

Section BestCandidate.
Variables (opts : Opts) (qty prc : float).

Definition bothWithin (po : PurchaseOrderRecord) : bool :=
  qtyWithin opts qty po && priceWithin opts prc po.

Definition onlyQtyWithin (po : PurchaseOrderRecord) : bool :=
  qtyWithin opts qty po && negb (priceWithin opts prc po).

Definition onlyPriceWithin (po : PurchaseOrderRecord) : bool :=
  negb (qtyWithin opts qty po) && priceWithin opts prc po.

(** The tie-break as the specification words it: the first candidate
    that satisfies the first rule some candidate satisfies. *)
Definition stagedTieBreak (pool : list PurchaseOrderRecord)
  : option PurchaseOrderRecord :=
  match find bothWithin pool with
  | Some m => Some m
  | None =>
      match find onlyQtyWithin pool with
      | Some m => Some m
      | None =>
          match find onlyPriceWithin pool with
          | Some m => Some m
          | None => hd_error pool
          end
      end
  end.

End BestCandidate.

(** *** Candidate selection *)

Section Candidates.
Variables (opts : Opts) (pos : list PurchaseOrderRecord) (itemName : string).

(** Whether a field contains the product name, case-insensitively. *)
Definition containsName (field : string) : bool :=
  includes (toLowerCase field) (toLowerCase itemName).

Definition nonEmpty (field : string) : bool := negb (String.eqb field "").

(** Stages (a) and (b): the records whose field is not empty and
    contains the product name. *)
Definition stageItemCode : list PurchaseOrderRecord :=
  filter (fun po => nonEmpty (PurchaseSupplierItem po)
                    && containsName (PurchaseSupplierItem po)) pos.

Definition stageDescription : list PurchaseOrderRecord :=
  filter (fun po => nonEmpty (PurchaseSupplierDescription po)
                    && containsName (PurchaseSupplierDescription po)) pos.

(** The number of keywords that occur in the upper-cased description or
    item code of a record. *)
Definition keywordHits (keywords : list string) (po : PurchaseOrderRecord) : nat :=
  List.length
    (filter (fun keyword =>
               includes (toUpperCase (PurchaseSupplierDescription po)) keyword
               || includes (toUpperCase (PurchaseSupplierItem po)) keyword)
            keywords).

(** Stage (c): the records with at least
    [min(minKeywordMatches, floor(tokenCount / 2))] keywords found. *)
Definition stageKeyword : list PurchaseOrderRecord :=
  filter (fun po =>
            let keywords := itemKeywords itemName in
            (Math_min (optMinKeywordMatches opts) (ofNat (Nat.div (List.length keywords) 2))
             <=? ofNat (keywordHits keywords po))%float)
         pos.

(** The first non-empty of three stages. *)
Definition firstNonEmpty {A : Type} (a b c : list A) : list A :=
  match a, b with
  | _ :: _, _ => a
  | [], _ :: _ => b
  | [], [] => c
  end.

(** Stages (a) and (b) without the condition on the field: the records
    whose field contains the product name, whatever the field. *)
Definition specStageItemCode : list PurchaseOrderRecord :=
  filter (fun po => containsName (PurchaseSupplierItem po)) pos.

Definition specStageDescription : list PurchaseOrderRecord :=
  filter (fun po => containsName (PurchaseSupplierDescription po)) pos.

Definition specCandidates : list PurchaseOrderRecord :=
  firstNonEmpty specStageItemCode specStageDescription stageKeyword.

End Candidates.

(** *** Rows of a line item *)

Section Rows.
Context {host : Host}.
Variables (opts : Opts) (invoiceData : InvoiceData) (pos : list PurchaseOrderRecord).

(** The match selected for a line item. *)
Definition selectedMatch (item : LineItem) : option PurchaseOrderRecord :=
  poMatch opts (invoiceQty item) (invoicePrice item)
          (poCandidates opts pos (orEmpty (productName item))).

Definition qtyFlag (item : LineItem) (m : PurchaseOrderRecord) : bool :=
  (abs (invoiceQty item - poQtyOf m) <? optQuantityTolerance opts)%float.

Definition priceFlag (item : LineItem) (m : PurchaseOrderRecord) : bool :=
  (abs (invoicePrice item - poPriceOf m) <? optPriceTolerance opts)%float.

Definition dateFlag (item : LineItem) (m : PurchaseOrderRecord) : bool :=
  if optRequireDateMatch opts then
    datesEqual (standardizeDate (Some (itemDate invoiceData item)))
               (standardizeDate (Some (DateRequired m)))
  else true.

End Rows.

(** *** Dates *)

(** Whether some string can match both patterns. *)
Definition patOverlap (a b : Pat) : bool :=
  match a, b with
  | PDigit, PDigit => true
  | PDigit, PChar c | PChar c, PDigit => isDigit c
  | PChar c, PChar c' => Ascii.eqb c c'
  end.

Fixpoint patsOverlap (p q : list Pat) : bool :=
  match p, q with
  | [], [] => true
  | a :: p', b :: q' => patOverlap a b && patsOverlap p' q'
  | _, _ => false
  end.

(** The expression shared by the MM/DD/YYYY and DD/MM/YYYY entries, and
    the one shared by the MM-DD-YYYY and DD-MM-YYYY entries. *)
Definition slashPattern : list Pat := d2 ++ lit "/" ++ d2 ++ lit "/" ++ d4.
Definition dashPattern : list Pat := d2 ++ lit "-" ++ d2 ++ lit "-" ++ d4.

(** The expression of the MM/DD/YY entry. *)
Definition shortYearPattern : list Pat := d2 ++ lit "/" ++ d2 ++ lit "/" ++ d2.

(** A two-digit year: 0 to 49 is 2000 to 2049, 50 to 99 is 1950 to 1999. *)
Definition expandYear (y : Z) : Z := (if y <? 50 then 2000 + y else 1900 + y)%Z.

(** The date read month first, day second, year third from pieces. *)
Definition monthFirst (pieces : list string) : JSDate :=
  newDate (field pieces 2) (minus1 (field pieces 0)) (field pieces 1).

(** *** Quantity and unit price *)

(** A field that is absent, or given but falsy: the number zero, [NaN]
    or the empty string. *)
Definition notGiven (v : option NumOrStr) : Prop :=
  v = None \/ exists u, v = Some u /\ truthy u = false.

(** A field that reads as a number other than zero. *)
Definition readsNonZero (u : NumOrStr) : bool :=
  (negb (is_nan (parseFloatToString u)) && negb (parseFloatToString u =? 0))%float.

End Wording.

(* ================================================================= *)
(** ** Properties *)

Import JS DateUtils Reconciliation Wording.

(** *** Lists *)

Section ListFacts.
Context {A : Type}.

Lemma isEmpty_false (l : list A) : isEmpty l = false <-> l <> [].
Proof.
  destruct l; simpl; split; intros H; try reflexivity; try discriminate.
  now elim H.
Qed.

Lemma first_of_filter (p : A -> bool) (l : list A) :
  nth_error (filter p l) 0 = find p l.
Proof.
  induction l as [|x l IH]; simpl; [reflexivity|].
  destruct (p x); simpl; auto.
Qed.

Lemma filter_empty_find (p : A -> bool) (l : list A) :
  isEmpty (filter p l) = true <-> find p l = None.
Proof.
  induction l as [|x l IH]; simpl; [tauto|].
  destruct (p x); simpl; [split; discriminate | exact IH].
Qed.

Lemma find_agree (p q : A -> bool) (l : list A) :
  (forall x, In x l -> p x = q x) -> find p l = find q l.
Proof.
  induction l as [|x l IH]; simpl; intros H; [reflexivity|].
  rewrite <- (H x (or_introl eq_refl)).
  destruct (p x); [reflexivity|]. apply IH. intros y Hy. apply H. now right.
Qed.

Lemma push_loop_flat_map {B : Type} (f : B -> list A) (xs : list B) (init : list A) :
  fold_left (fun acc x => acc ++ f x) xs init = init ++ flat_map f xs.
Proof.
  revert init. induction xs as [|x xs IH]; intros init; simpl.
  - now rewrite app_nil_r.
  - rewrite IH. now rewrite app_assoc.
Qed.

Lemma push_if_loop_filter (p : A -> bool) (xs init : list A) :
  fold_left (fun rows x => if p x then rows ++ [x] else rows) xs init
  = init ++ filter p xs.
Proof.
  revert init. induction xs as [|x xs IH]; intros init; simpl.
  - now rewrite app_nil_r.
  - rewrite IH. destruct (p x); [|reflexivity].
    now rewrite <- app_assoc.
Qed.

End ListFacts.

(** *** Summary *)

Lemma status_partition (l : list ReconciliationResult) :
  (List.length (filter (hasStatus MATCH) l)
   + List.length (filter (hasStatus DISCREPANCY) l)
   + List.length (filter (hasStatus NO_MATCH) l) = List.length l)%nat.
Proof.
  induction l as [|r l IH]; simpl; [reflexivity|].
  unfold hasStatus in *. destruct (Status r); simpl; lia.
Qed.

Lemma filter_invoice_idem (l : list ReconciliationResult) :
  filter isInvoiceRow (filter isInvoiceRow l) = filter isInvoiceRow l.
Proof.
  induction l as [|r l IH]; simpl; [reflexivity|].
  destruct (isInvoiceRow r) eqn:E; simpl; rewrite ?E, IH; reflexivity.
Qed.

Lemma filter_invoice_skips_po (before after : list ReconciliationResult)
      (r : ReconciliationResult) :
  Source r = PO ->
  filter isInvoiceRow (before ++ r :: after) = filter isInvoiceRow (before ++ after).
Proof.
  intros Hr. rewrite !filter_app. cbn [filter].
  unfold isInvoiceRow at 2. now rewrite Hr.
Qed.

(** C9. With an empty list of purchase-order records the reconciliation
    returns no row at all, for every invoice, every options value and
    every host. *)
Theorem reconcile_no_po_records :
  forall (host : Host) (invoiceData : InvoiceData) (options : MatchingOptions),
    reconcileInvoiceData invoiceData [] options = [].
Proof. intros. reflexivity. Qed.

(** C5. The summary is computed from the INVOICE rows alone: it is
    unchanged when the PO rows are removed and when a PO row is
    inserted anywhere, [totalItems] is the number of INVOICE rows, and
    the three status counts add up to it. *)
Theorem summary_counts_invoice_rows :
  forall results : list ReconciliationResult,
    let s := generateReconciliationSummary results in
    totalItems s = List.length (filter isInvoiceRow results)
    /\ (matches s + discrepancies s + noMatches s = totalItems s)%nat
    /\ generateReconciliationSummary (filter isInvoiceRow results) = s
    /\ (forall before after r, Source r = PO -> results = before ++ r :: after ->
          generateReconciliationSummary (before ++ after) = s).
Proof.
  intros results s. subst s. unfold generateReconciliationSummary. cbn [totalItems matches discrepancies noMatches].
  split; [reflexivity|]. split; [apply status_partition|].
  split; [now rewrite filter_invoice_idem|].
  intros before after r Hr ->.
  now rewrite (filter_invoice_skips_po before after r Hr).
Qed.

Lemma summary_counts_invoice_rows_witness :
  let results := [Samples.invoiceRow MATCH; Samples.poRow MATCH; Samples.invoiceRow NO_MATCH] in
  Source (Samples.poRow MATCH) = PO
  /\ generateReconciliationSummary [Samples.invoiceRow MATCH; Samples.invoiceRow NO_MATCH]
     = generateReconciliationSummary results.
Proof.
  split; [reflexivity|].
  exact (proj2 (proj2 (proj2 (summary_counts_invoice_rows
           [Samples.invoiceRow MATCH; Samples.poRow MATCH; Samples.invoiceRow NO_MATCH])))
           [Samples.invoiceRow MATCH] [Samples.invoiceRow NO_MATCH] (Samples.poRow MATCH)
           eq_refl eq_refl).
Defined.

(** *** The best candidate *)

Section BestCandidate.
Variables (opts : Opts) (qty prc : float).

Lemma poMatch_find (pool : list PurchaseOrderRecord) :
  poMatch opts qty prc pool =
  match find (bothWithin opts qty prc) pool with
  | Some m => Some m
  | None =>
      match find (qtyWithin opts qty) pool with
      | Some m => Some m
      | None =>
          match find (priceWithin opts prc) pool with
          | Some m => Some m
          | None => hd_error pool
          end
      end
  end.
Proof.
  unfold poMatch.
  destruct pool as [|c pool]; [reflexivity|].
  change (isEmpty (c :: pool)) with false. cbn [negb].
  set (l := c :: pool).
  rewrite !first_of_filter.
  fold (bothWithin opts qty prc).
  destruct (isEmpty (filter (bothWithin opts qty prc) l)) eqn:E1.
  - apply filter_empty_find in E1. rewrite E1. cbn [negb].
    destruct (isEmpty (filter (qtyWithin opts qty) l)) eqn:E2.
    + apply filter_empty_find in E2. rewrite E2. cbn [negb].
      destruct (isEmpty (filter (priceWithin opts prc) l)) eqn:E3.
      * apply filter_empty_find in E3. rewrite E3. reflexivity.
      * cbn [negb]. destruct (find (priceWithin opts prc) l) eqn:F3; [reflexivity|].
        apply filter_empty_find in F3. congruence.
    + cbn [negb]. destruct (find (qtyWithin opts qty) l) eqn:F2; [reflexivity|].
      apply filter_empty_find in F2. congruence.
  - cbn [negb]. destruct (find (bothWithin opts qty prc) l) eqn:F1; [reflexivity|].
    apply filter_empty_find in F1. congruence.
Qed.

Lemma poMatch_staged (pool : list PurchaseOrderRecord) :
  poMatch opts qty prc pool = stagedTieBreak opts qty prc pool.
Proof.
  rewrite poMatch_find. unfold stagedTieBreak.
  destruct (find (bothWithin opts qty prc) pool) eqn:F1; [reflexivity|].
  assert (Hq : find (qtyWithin opts qty) pool = find (onlyQtyWithin opts qty prc) pool).
  { apply find_agree. intros x Hx.
    pose proof (find_none _ _ F1 x Hx) as Hb. unfold bothWithin in Hb.
    unfold onlyQtyWithin. destruct (qtyWithin opts qty x); simpl in *; [now rewrite Hb|reflexivity]. }
  destruct (find (qtyWithin opts qty) pool) eqn:F2; rewrite <- Hq; [reflexivity|].
  assert (Hp : find (priceWithin opts prc) pool = find (onlyPriceWithin opts qty prc) pool).
  { apply find_agree. intros x Hx.
    pose proof (find_none _ _ F2 x Hx) as Hb.
    unfold onlyPriceWithin. now rewrite Hb. }
  now rewrite Hp.
Qed.

Lemma poMatch_some (pool : list PurchaseOrderRecord) :
  pool <> [] -> exists m, poMatch opts qty prc pool = Some m /\ In m pool.
Proof.
  intros Hne. rewrite poMatch_find.
  destruct (find (bothWithin opts qty prc) pool) eqn:F1.
  { eexists; split; [reflexivity|]. eapply find_some; eauto. }
  destruct (find (qtyWithin opts qty) pool) eqn:F2.
  { eexists; split; [reflexivity|]. eapply find_some; eauto. }
  destruct (find (priceWithin opts prc) pool) eqn:F3.
  { eexists; split; [reflexivity|]. eapply find_some; eauto. }
  destruct pool as [|c pool]; [congruence|].
  exists c. split; [reflexivity | now left].
Qed.

End BestCandidate.

(** C2. On a non-empty candidate pool the selected match is the first
    candidate with quantity and price both within tolerance; if there is
    none, the first with only the quantity within tolerance; if there is
    none, the first with only the price within tolerance; if there is
    none, the first candidate of the pool. A match is always selected,
    and it is a member of the pool. *)
Theorem best_candidate_staged :
  forall (opts : Opts) (qty prc : float) (pool : list PurchaseOrderRecord),
    pool <> [] ->
    poMatch opts qty prc pool = stagedTieBreak opts qty prc pool
    /\ exists m, poMatch opts qty prc pool = Some m /\ In m pool.
Proof.
  intros opts qty prc pool Hne. split.
  - apply poMatch_staged.
  - now apply poMatch_some.
Qed.

Lemma best_candidate_staged_witness :
  let opts := withDefaults noOptions in
  let pool := [Samples.widgetPO8; Samples.widgetPO] in
  pool <> []
  /\ poMatch opts 10 5 pool = stagedTieBreak opts 10 5 pool
  /\ poMatch opts 10 5 pool = Some Samples.widgetPO.
Proof.
  intros opts pool.
  assert (Hne : pool <> []) by discriminate.
  destruct (best_candidate_staged opts 10 5 pool Hne) as [Hs _].
  split; [exact Hne|]. split; [exact Hs|]. vm_compute. reflexivity.
Defined.

(** *** Candidate selection *)

Lemma keywordMatches_hits (keywords : list string) (po : PurchaseOrderRecord) :
  keywordMatches keywords po = keywordHits keywords po.
Proof.
  unfold keywordMatches, keywordHits.
  set (hit := fun keyword : string =>
                includes (toUpperCase (PurchaseSupplierDescription po)) keyword
                || includes (toUpperCase (PurchaseSupplierItem po)) keyword).
  assert (G : forall ks n,
             fold_left (fun count keyword => (count + (if hit keyword then 1 else 0))%nat) ks n
             = (n + List.length (filter hit ks))%nat).
  { induction ks as [|k ks IH]; intros n; simpl; [lia|].
    rewrite IH. destruct (hit k); simpl; lia. }
  apply (G keywords 0%nat).
Qed.

Lemma candidateRows_stage (opts : Opts) (pos : list PurchaseOrderRecord) (itemName : string) :
  candidateRows opts (itemKeywords itemName) pos = stageKeyword opts pos itemName.
Proof.
  unfold candidateRows. rewrite push_if_loop_filter. simpl.
  unfold stageKeyword. apply filter_ext. intros po.
  unfold keywordQualifies, minMatches. now rewrite keywordMatches_hits.
Qed.

Lemma truthy_nonEmpty (itemName field : string) :
  truthyStr field && includes (toLowerCase field) (toLowerCase itemName)
  = nonEmpty field && containsName itemName field.
Proof. destruct field; reflexivity. Qed.

Lemma poCandidates_stages (opts : Opts) (pos : list PurchaseOrderRecord) (itemName : string) :
  poCandidates opts pos itemName
  = firstNonEmpty (stageItemCode pos itemName) (stageDescription pos itemName)
                  (stageKeyword opts pos itemName).
Proof.
  unfold poCandidates. rewrite candidateRows_stage.
  rewrite (filter_ext (itemCodeMatch itemName) _ (fun po => truthy_nonEmpty _ _)).
  rewrite (filter_ext (descriptionMatch itemName) _ (fun po => truthy_nonEmpty _ _)).
  fold (stageItemCode pos itemName). fold (stageDescription pos itemName).
  destruct (stageItemCode pos itemName) as [|a l]; [|reflexivity].
  cbn [isEmpty List.length Nat.eqb].
  destruct (stageDescription pos itemName) as [|b l']; [|reflexivity].
  cbn [isEmpty List.length Nat.eqb firstNonEmpty].
  destruct (stageKeyword opts pos itemName); reflexivity.
Qed.

Lemma guard_redundant (itemName field : string) :
  itemName <> "" ->
  nonEmpty field && containsName itemName field = containsName itemName field.
Proof.
  intros Hne. unfold containsName.
  destruct field as [|c field]; [|reflexivity].
  destruct itemName as [|d n]; [congruence | reflexivity].
Qed.

(** C1, as amended. The candidate pool of a line item is the first
    non-empty of three stages over the records of the invoice's order:
    (a) the records whose item code is not empty and contains the
    product name, case-insensitively; (b) the records whose description
    is not empty and contains it; (c) the records in which the number of
    upper-cased, whitespace-separated keywords of the product name found
    in the description or the item code is at least
    [min(minKeywordMatches, floor(tokenCount / 2))]. When stage (a) is
    not empty the pool is that set. For a product name that is not empty
    the two emptiness guards change nothing. *)
Theorem candidate_pool_staged :
  forall (opts : Opts) (pos : list PurchaseOrderRecord) (itemName : string),
    poCandidates opts pos itemName
    = firstNonEmpty (stageItemCode pos itemName) (stageDescription pos itemName)
                    (stageKeyword opts pos itemName)
    /\ (stageItemCode pos itemName <> [] ->
        poCandidates opts pos itemName = stageItemCode pos itemName)
    /\ (itemName <> "" ->
        stageItemCode pos itemName = specStageItemCode pos itemName
        /\ stageDescription pos itemName = specStageDescription pos itemName
        /\ poCandidates opts pos itemName = specCandidates opts pos itemName).
Proof.
  intros opts pos itemName.
  pose proof (poCandidates_stages opts pos itemName) as Hs.
  split; [exact Hs|]. split.
  - intros Hne. rewrite Hs. destruct (stageItemCode pos itemName); [congruence|reflexivity].
  - intros Hne.
    assert (Ha : stageItemCode pos itemName = specStageItemCode pos itemName).
    { apply filter_ext. intros po. now apply guard_redundant. }
    assert (Hb : stageDescription pos itemName = specStageDescription pos itemName).
    { apply filter_ext. intros po. now apply guard_redundant. }
    split; [exact Ha|]. split; [exact Hb|].
    rewrite Hs, Ha, Hb. reflexivity.
Qed.

Lemma candidate_pool_staged_witness :
  let opts := withDefaults noOptions in
  let pos := [Samples.widgetPO8; Samples.widgetPO] in
  stageItemCode pos "Widget" <> []
  /\ "Widget" <> ""
  /\ poCandidates opts pos "Widget" = stageItemCode pos "Widget"
  /\ poCandidates opts pos "Widget" = specCandidates opts pos "Widget".
Proof.
  intros opts pos.
  assert (H1 : stageItemCode pos "Widget" <> []) by (vm_compute; discriminate).
  assert (H2 : "Widget" <> "") by discriminate.
  destruct (candidate_pool_staged opts pos "Widget") as [_ [Ha Hb]].
  split; [exact H1|]. split; [exact H2|].
  split; [exact (Ha H1) | exact (proj2 (proj2 (Hb H2)))].
Defined.

(** C1, as stated, fails. For a line item without a product name and
    the records [bareCodePO] (empty item code) and [codedPO] of its
    order, the item code of both contains the empty name, so the stated
    stage (a) holds both records; the source leaves out the record whose
    item code is empty, and its pool is [codedPO] alone. The selected
    match differs as well. *)
Lemma candidate_pool_counterexample :
  let opts := withDefaults noOptions in
  let pos := [Samples.bareCodePO; Samples.codedPO] in
  specStageItemCode pos "" = [Samples.bareCodePO; Samples.codedPO]
  /\ specCandidates opts pos "" = [Samples.bareCodePO; Samples.codedPO]
  /\ poCandidates opts pos "" = [Samples.codedPO]
  /\ poCandidates opts pos "" <> specCandidates opts pos ""
  /\ poMatch opts 1 1 (poCandidates opts pos "") = Some Samples.codedPO
  /\ poMatch opts 1 1 (specCandidates opts pos "") = Some Samples.bareCodePO.
Proof.
  intros opts pos.
  assert (Hs : specCandidates opts pos "" = [Samples.bareCodePO; Samples.codedPO])
    by (vm_compute; reflexivity).
  assert (Hc : poCandidates opts pos "" = [Samples.codedPO]) by (vm_compute; reflexivity).
  split; [vm_compute; reflexivity|]. split; [exact Hs|]. split; [exact Hc|].
  split; [rewrite Hs, Hc; intros E; apply (f_equal (@List.length _)) in E; discriminate|].
  split; vm_compute; reflexivity.
Qed.

(** *** Rows of a line item *)

Lemma statusOf_match (q p d : bool) :
  statusOf q p d = MATCH <-> q = true /\ p = true /\ d = true.
Proof.
  unfold statusOf. destruct q, p, d; simpl; split; intros H;
    try discriminate; try reflexivity; try (repeat split; reflexivity);
    destruct H as [? [? ?]]; discriminate.
Qed.

Lemma statusOf_cases (q p d : bool) :
  statusOf q p d = MATCH \/ statusOf q p d = DISCREPANCY.
Proof. unfold statusOf. destruct (q && p && d); auto. Qed.

Lemma filter_all (A : Type) (p : A -> bool) (l : list A) :
  (forall x, In x l -> p x = true) -> filter p l = l.
Proof.
  induction l as [|x l IH]; simpl; intros H; [reflexivity|].
  rewrite (H x (or_introl eq_refl)). f_equal. apply IH. intros y Hy. apply H. now right.
Qed.

Section Rows.
Context {host : Host}.
Variables (opts : Opts) (invoiceData : InvoiceData) (pos : list PurchaseOrderRecord).

Lemma itemRows_matched (item : LineItem) (m : PurchaseOrderRecord) :
  selectedMatch opts pos item = Some m ->
  exists ri rp,
    itemRows opts invoiceData pos item = [ri; rp]
    /\ (Source ri = INVOICE
        /\ PO_num ri = orEmpty (poNumber invoiceData)
        /\ Item_Description ri = orEmpty (productName item)
        /\ Qty ri = invoiceQty item
        /\ Unit_Price ri = invoicePrice item
        /\ Total_Price ri = (invoiceQty item * invoicePrice item)%float
        /\ Date ri = standardizeDate (Some (itemDate invoiceData item)))
    /\ (Source rp = PO
        /\ PO_num rp = PurchaseOrderID m
        /\ Item_Description rp
           = (PurchaseSupplierItem m ++ " - "
              ++ replaceNewlines (PurchaseSupplierDescription m))%string
        /\ Qty rp = poQtyOf m
        /\ Unit_Price rp = poPriceOf m
        /\ Total_Price rp = (poQtyOf m * poPriceOf m)%float
        /\ Date rp = standardizeDate (Some (DateRequired m)))
    /\ (forall r, In r [ri; rp] ->
          Status r = statusOf (qtyFlag opts item m) (priceFlag opts item m) (dateFlag opts invoiceData item m)
          /\ _qty_match r = Some (qtyFlag opts item m)
          /\ _price_match r = Some (priceFlag opts item m)
          /\ _date_match r = Some (dateFlag opts invoiceData item m)).
Proof.
  unfold selectedMatch. intros H. unfold itemRows. rewrite H.
  eexists; eexists. split; [reflexivity|].
  split; [repeat split|]. split; [repeat split|].
  intros r [<-|[<-|[]]]; repeat split.
Qed.

Lemma itemRows_unmatched (item : LineItem) :
  selectedMatch opts pos item = None ->
  exists ri,
    itemRows opts invoiceData pos item = [ri]
    /\ Source ri = INVOICE
    /\ PO_num ri = orEmpty (poNumber invoiceData)
    /\ Item_Description ri = orEmpty (productName item)
    /\ Qty ri = invoiceQty item
    /\ Unit_Price ri = invoicePrice item
    /\ Total_Price ri = (invoiceQty item * invoicePrice item)%float
    /\ Date ri = standardizeDate (Some (itemDate invoiceData item))
    /\ Status ri = NO_MATCH
    /\ _qty_match ri = None /\ _price_match ri = None /\ _date_match ri = None.
Proof.
  unfold selectedMatch. intros H. unfold itemRows. rewrite H.
  eexists. split; [reflexivity|]. repeat split.
Qed.

End Rows.

Lemma reconcile_rows {host : Host} (invoiceData : InvoiceData)
      (poRecords : list PurchaseOrderRecord) (options : MatchingOptions) :
  poRecords <> [] ->
  reconcileInvoiceData invoiceData poRecords options
  = flat_map (itemRows (withDefaults options) invoiceData
                       (matchingPOs (orEmpty (poNumber invoiceData)) poRecords))
             (orDefault (lineItems invoiceData) []).
Proof.
  intros Hne. unfold reconcileInvoiceData.
  apply isEmpty_false in Hne. rewrite Hne.
  unfold reconcileLoop. now rewrite push_loop_flat_map.
Qed.

(** C3. A line item with a selected match [m] emits an INVOICE row and a
    PO row, and both carry the quantity flag
    [|invoiceQty - qty of m| < quantityTolerance] and the price flag
    [|invoicePrice - price of m| < priceTolerance], both taken on [m]
    itself. The date compared is the delivery date of the item if it has
    a non-empty one, else the invoice date of the document, else the
    empty string; it and the required date of [m] go through
    [standardizeDate] and are the dates of the two rows. The date flag
    of both rows is [true] when [requireDateMatch] is off and
    [datesEqual] of the two normalized dates when it is on. The status
    of both rows is MATCH exactly when the three flags hold, and
    DISCREPANCY otherwise. *)
Theorem matched_flags_and_status :
  forall (host : Host) (opts : Opts) (invoiceData : InvoiceData)
         (pos : list PurchaseOrderRecord) (item : LineItem) (m : PurchaseOrderRecord),
    selectedMatch opts pos item = Some m ->
    let cmpDate :=
      match deliveryDate item with
      | Some (String c s) => String c s
      | _ => match invoiceDate invoiceData with Some d => d | None => "" end
      end in
    let q := (abs (invoiceQty item - parseFloatToString (PurchaseQty m))
              <? optQuantityTolerance opts)%float in
    let p := (abs (invoicePrice item - parseFloatToString (PurchasePrice m))
              <? optPriceTolerance opts)%float in
    exists ri rp,
      itemRows opts invoiceData pos item = [ri; rp]
      /\ Source ri = INVOICE /\ Source rp = PO
      /\ Date ri = standardizeDate (Some cmpDate)
      /\ Date rp = standardizeDate (Some (DateRequired m))
      /\ _qty_match ri = Some q /\ _qty_match rp = Some q
      /\ _price_match ri = Some p /\ _price_match rp = Some p
      /\ (optRequireDateMatch opts = false ->
          _date_match ri = Some true /\ _date_match rp = Some true)
      /\ (optRequireDateMatch opts = true ->
          _date_match ri = Some (datesEqual (Date ri) (Date rp))
          /\ _date_match rp = Some (datesEqual (Date ri) (Date rp)))
      /\ (Status ri = MATCH <->
          _qty_match ri = Some true /\ _price_match ri = Some true
          /\ _date_match ri = Some true)
      /\ (Status ri <> MATCH -> Status ri = DISCREPANCY)
      /\ Status rp = Status ri.
Proof.
  intros host opts invoiceData pos item m Hm cmpDate q p.
  assert (Hd : itemDate invoiceData item = cmpDate).
  { unfold itemDate, cmpDate, orEmpty, orDefault.
    destruct (deliveryDate item) as [[|c s]|]; reflexivity. }
  destruct (itemRows_matched opts invoiceData pos item m Hm)
    as [ri [rp [Hrows [Hi [Hp Hflags]]]]].
  destruct Hi as [Hsi [_ [_ [_ [_ [_ Hdi]]]]]].
  destruct Hp as [Hsp [_ [_ [_ [_ [_ Hdp]]]]]].
  destruct (Hflags ri (or_introl eq_refl)) as [Si [Qi [Pi Di]]].
  destruct (Hflags rp (or_intror (or_introl eq_refl))) as [Sp [Qp [Pp Dp]]].
  rewrite Hd in Hdi.
  assert (Hdf : dateFlag opts invoiceData item m
                = if optRequireDateMatch opts then datesEqual (Date ri) (Date rp) else true).
  { unfold dateFlag. now rewrite Hd, Hdi, Hdp. }
  exists ri, rp.
  split; [exact Hrows|]. split; [exact Hsi|]. split; [exact Hsp|].
  split; [exact Hdi|]. split; [exact Hdp|].
  split; [exact Qi|]. split; [exact Qp|]. split; [exact Pi|]. split; [exact Pp|].
  split; [intros Hoff; rewrite Di, Dp, Hdf, Hoff; split; reflexivity|].
  split; [intros Hon; rewrite Di, Dp, Hdf, Hon; split; reflexivity|].
  split.
  { rewrite Si, Qi, Pi, Di. split.
    - intros E. apply statusOf_match in E. destruct E as [-> [-> ->]].
      repeat split.
    - intros [E1 [E2 E3]]. injection E1 as E1. injection E2 as E2. injection E3 as E3.
      apply statusOf_match. repeat split; assumption. }
  split; [|congruence].
  rewrite Si. destruct (statusOf_cases (qtyFlag opts item m) (priceFlag opts item m)
                          (dateFlag opts invoiceData item m)) as [E|E];
    rewrite E; [intros H; now elim H | reflexivity].
Qed.

Lemma matched_flags_and_status_witness :
  let opts := withDefaults noOptions in
  selectedMatch opts [Samples.widgetPO8] Samples.widgetItem = Some Samples.widgetPO8
  /\ exists ri rp,
       @itemRows Samples.silentHost opts Samples.widgetInvoice
                 [Samples.widgetPO8] Samples.widgetItem = [ri; rp]
       /\ _qty_match ri = Some false /\ _price_match rp = Some true
       /\ Status ri = DISCREPANCY /\ Status rp = DISCREPANCY.
Proof.
  intros opts.
  assert (Hm : selectedMatch opts [Samples.widgetPO8] Samples.widgetItem
               = Some Samples.widgetPO8) by (vm_compute; reflexivity).
  split; [exact Hm|].
  destruct (matched_flags_and_status Samples.silentHost opts Samples.widgetInvoice
              [Samples.widgetPO8] Samples.widgetItem Samples.widgetPO8 Hm)
    as [ri [rp [Hrows [_ [_ [_ [_ [Qi [_ [_ [Pp [_ [_ [Hiff [Hdisc Hsame]]]]]]]]]]]]]]].
  exists ri, rp.
  assert (Hnm : Status ri <> MATCH).
  { intros E. apply Hiff in E. destruct E as [E _]. rewrite Qi in E.
    vm_compute in E. discriminate. }
  split; [exact Hrows|]. split; [exact Qi|]. split; [exact Pp|].
  split; [exact (Hdisc Hnm)|]. rewrite Hsame. exact (Hdisc Hnm).
Defined.

(** C4, as amended. When the list of purchase-order records is not
    empty, the result is the concatenation, in line-item order, of the
    rows of each line item. A line item with a selected match emits two
    rows: an INVOICE row with the invoice-side quantity, unit price and
    normalized date and their product as total price, then a PO row with
    the quantity, price and normalized required date of the match and
    the description ["<item code> - <description>"] with newlines
    replaced by spaces; both rows carry the same status, which is not
    NO MATCH, and the same three flags. A line item without a match
    emits one INVOICE row with status NO MATCH and no flag. *)
Theorem rows_emitted_per_line_item :
  forall (host : Host) (invoiceData : InvoiceData)
         (poRecords : list PurchaseOrderRecord) (options : MatchingOptions),
    poRecords <> [] ->
    let opts := withDefaults options in
    let pos := matchingPOs (orEmpty (poNumber invoiceData)) poRecords in
    reconcileInvoiceData invoiceData poRecords options
    = flat_map (itemRows opts invoiceData pos) (orDefault (lineItems invoiceData) [])
    /\ forall item : LineItem,
         match selectedMatch opts pos item with
         | Some m =>
             exists ri rp,
               itemRows opts invoiceData pos item = [ri; rp]
               /\ Source ri = INVOICE
               /\ Qty ri = invoiceQty item
               /\ Unit_Price ri = invoicePrice item
               /\ Total_Price ri = (Qty ri * Unit_Price ri)%float
               /\ Date ri = standardizeDate (Some (itemDate invoiceData item))
               /\ Source rp = PO
               /\ Qty rp = parseFloatToString (PurchaseQty m)
               /\ Unit_Price rp = parseFloatToString (PurchasePrice m)
               /\ Date rp = standardizeDate (Some (DateRequired m))
               /\ Item_Description rp
                  = (PurchaseSupplierItem m ++ " - "
                     ++ replaceNewlines (PurchaseSupplierDescription m))%string
               /\ Status ri = Status rp
               /\ Status ri <> NO_MATCH
               /\ _qty_match ri = _qty_match rp /\ _qty_match ri <> None
               /\ _price_match ri = _price_match rp /\ _price_match ri <> None
               /\ _date_match ri = _date_match rp /\ _date_match ri <> None
         | None =>
             exists ri,
               itemRows opts invoiceData pos item = [ri]
               /\ Source ri = INVOICE
               /\ Qty ri = invoiceQty item
               /\ Unit_Price ri = invoicePrice item
               /\ Total_Price ri = (Qty ri * Unit_Price ri)%float
               /\ Date ri = standardizeDate (Some (itemDate invoiceData item))
               /\ Status ri = NO_MATCH
               /\ _qty_match ri = None /\ _price_match ri = None /\ _date_match ri = None
         end.
Proof.
  intros host invoiceData poRecords options Hne opts pos.
  split; [now apply reconcile_rows|].
  intros item. destruct (selectedMatch opts pos item) as [m|] eqn:Hm.
  - destruct (itemRows_matched opts invoiceData pos item m Hm)
      as [ri [rp [Hrows [Hi [Hp Hflags]]]]].
    destruct Hi as [Hsi [_ [_ [Hqi [Hui [Hti Hdi]]]]]].
    destruct Hp as [Hsp [_ [Hdesc [Hqp [Hup [_ Hdp]]]]]].
    destruct (Hflags ri (or_introl eq_refl)) as [Si [Qi [Pi Di]]].
    destruct (Hflags rp (or_intror (or_introl eq_refl))) as [Sp [Qp [Pp Dp]]].
    exists ri, rp. rewrite Hqi, Hui.
    repeat match goal with |- _ /\ _ => split end;
      try assumption; try reflexivity; try congruence.
    rewrite Si. destruct (statusOf_cases (qtyFlag opts item m) (priceFlag opts item m)
                            (dateFlag opts invoiceData item m)) as [E|E];
      rewrite E; discriminate.
  - destruct (itemRows_unmatched opts invoiceData pos item Hm)
      as [ri [Hrows [Hs [_ [_ [Hq [Hu [Ht [Hd [Hst [F1 [F2 F3]]]]]]]]]]]].
    exists ri. rewrite Hq, Hu.
    repeat match goal with |- _ /\ _ => split end; try assumption; reflexivity.
Qed.

Lemma rows_emitted_per_line_item_witness :
  [Samples.widgetPO] <> []
  /\ List.map Source (@reconcileInvoiceData Samples.silentHost Samples.widgetInvoice
                        [Samples.widgetPO] noOptions) = [INVOICE; PO]
  /\ List.map Status (@reconcileInvoiceData Samples.silentHost Samples.widgetInvoice
                        [Samples.widgetPO] noOptions) = [MATCH; MATCH].
Proof.
  assert (Hne : [Samples.widgetPO] <> []) by discriminate.
  destruct (rows_emitted_per_line_item Samples.silentHost Samples.widgetInvoice
              [Samples.widgetPO] noOptions Hne) as [Hrows _].
  split; [exact Hne|]. rewrite Hrows. split; vm_compute; reflexivity.
Defined.

(** C4, as stated, fails: the run on an invoice with one line item and
    an empty list of purchase-order records. The line item has no match,
    so one NO MATCH row is due for it; the early return on the empty
    list emits no row. *)
Lemma rows_emitted_counterexample :
  let opts := withDefaults noOptions in
  let pos := matchingPOs "PO1" [] in
  selectedMatch opts pos Samples.widgetItem = None
  /\ List.map Status
       (flat_map (@itemRows Samples.silentHost opts Samples.widgetInvoice pos)
                 [Samples.widgetItem]) = [NO_MATCH]
  /\ @reconcileInvoiceData Samples.silentHost Samples.widgetInvoice [] noOptions = []
  /\ @reconcileInvoiceData Samples.silentHost Samples.widgetInvoice [] noOptions
     <> flat_map (@itemRows Samples.silentHost opts Samples.widgetInvoice pos)
                 [Samples.widgetItem].
Proof.
  intros opts pos.
  split; [vm_compute; reflexivity|]. split; [vm_compute; reflexivity|].
  split; [reflexivity|].
  intros E. apply (f_equal (@List.length _)) in E. vm_compute in E. discriminate.
Qed.

(** *** Short product names *)

Lemma stageKeyword_filter (opts : Opts) (pos : list PurchaseOrderRecord) (itemName : string) :
  stageKeyword opts pos itemName
  = filter (keywordQualifies opts (itemKeywords itemName)) pos.
Proof.
  rewrite <- candidateRows_stage. unfold candidateRows.
  now rewrite push_if_loop_filter.
Qed.

Lemma short_name_threshold (opts : Opts) (keywords : list string) :
  optMinKeywordMatches opts = 3%float ->
  (List.length keywords <= 1)%nat ->
  minMatches opts keywords = 0%float.
Proof.
  intros H3 Hlen. unfold minMatches. rewrite H3.
  destruct keywords as [|k [|k' ks]]; [reflexivity|reflexivity|simpl in Hlen; lia].
Qed.

Lemma short_name_qualifies (opts : Opts) (keywords : list string)
      (po : PurchaseOrderRecord) :
  optMinKeywordMatches opts = 3%float ->
  (List.length keywords <= 1)%nat ->
  keywordQualifies opts keywords po = true.
Proof.
  intros H3 Hlen. unfold keywordQualifies.
  rewrite (short_name_threshold opts keywords H3 Hlen).
  destruct keywords as [|k [|k' ks]]; [reflexivity| |simpl in Hlen; lia].
  unfold keywordMatches. cbn [fold_left].
  destruct (includes _ k || includes _ k); reflexivity.
Qed.

Lemma firstNonEmpty_nonempty (A : Type) (a b c : list A) :
  c <> [] -> firstNonEmpty a b c <> [].
Proof. destruct a, b; simpl; intros H; try discriminate; exact H. Qed.

(** C10. For a line item whose product name has at most one keyword,
    under the default [minKeywordMatches], the keyword threshold is 0
    and every record qualifies at the keyword stage: when stages (a) and
    (b) are empty the pool is the whole set of records of the invoice's
    order. Hence, when that set is not empty, no row emitted for the
    line item has status NO MATCH. *)
Theorem short_name_never_unmatched :
  forall (host : Host) (options : MatchingOptions) (invoiceData : InvoiceData)
         (poRecords : list PurchaseOrderRecord) (item : LineItem),
    minKeywordMatches options = None ->
    (List.length (itemKeywords (orEmpty (productName item))) <= 1)%nat ->
    let opts := withDefaults options in
    let pos := matchingPOs (orEmpty (poNumber invoiceData)) poRecords in
    let name := orEmpty (productName item) in
    minMatches opts (itemKeywords name) = 0%float
    /\ (stageItemCode pos name = [] -> stageDescription pos name = [] ->
        poCandidates opts pos name = pos)
    /\ (pos <> [] ->
        forall r, In r (itemRows opts invoiceData pos item) -> Status r <> NO_MATCH).
Proof.
  intros host options invoiceData poRecords item Hmk Hlen opts pos name.
  assert (H3 : optMinKeywordMatches opts = 3%float).
  { subst opts. unfold withDefaults. cbn [optMinKeywordMatches]. now rewrite Hmk. }
  assert (Hall : stageKeyword opts pos name = pos).
  { rewrite stageKeyword_filter. apply filter_all. intros po _.
    now apply short_name_qualifies. }
  split; [now apply short_name_threshold|].
  split.
  - intros Ha Hb. rewrite poCandidates_stages, Ha, Hb. exact Hall.
  - intros Hne r Hr.
    assert (Hpool : poCandidates opts pos name <> []).
    { rewrite poCandidates_stages. apply firstNonEmpty_nonempty. now rewrite Hall. }
    destruct (poMatch_some opts (invoiceQty item) (invoicePrice item) _ Hpool)
      as [m [Hm _]].
    destruct (itemRows_matched opts invoiceData pos item m Hm)
      as [ri [rp [Hrows [_ [_ Hflags]]]]].
    rewrite Hrows in Hr. destruct (Hflags r Hr) as [Hst _]. rewrite Hst.
    destruct (statusOf_cases (qtyFlag opts item m) (priceFlag opts item m)
                (dateFlag opts invoiceData item m)) as [E|E]; rewrite E; discriminate.
Qed.

Lemma short_name_never_unmatched_witness :
  let item := Samples.mkItem "Gasket" (Some (JNum 3)) (Some (JNum 7)) in
  let invoice := Samples.mkInvoice "PO1" [item] in
  minKeywordMatches noOptions = None
  /\ (List.length (itemKeywords "Gasket") <= 1)%nat
  /\ stageItemCode [Samples.widgetPO] "Gasket" = []
  /\ stageDescription [Samples.widgetPO] "Gasket" = []
  /\ poCandidates (withDefaults noOptions) [Samples.widgetPO] "Gasket" = [Samples.widgetPO]
  /\ forall r,
       In r (@itemRows Samples.silentHost (withDefaults noOptions) invoice
                       [Samples.widgetPO] item) ->
       Status r <> NO_MATCH.
Proof.
  intros item invoice.
  assert (H1 : minKeywordMatches noOptions = None) by reflexivity.
  assert (H2 : (List.length (itemKeywords (orEmpty (productName item))) <= 1)%nat)
    by (vm_compute; lia).
  assert (Ha : stageItemCode [Samples.widgetPO] "Gasket" = []) by reflexivity.
  assert (Hb : stageDescription [Samples.widgetPO] "Gasket" = []) by reflexivity.
  destruct (short_name_never_unmatched Samples.silentHost noOptions invoice
              [Samples.widgetPO] item H1 H2) as [_ [Hpool Hrows]].
  split; [exact H1|]. split; [exact H2|]. split; [exact Ha|]. split; [exact Hb|].
  split; [exact (Hpool Ha Hb)|].
  apply Hrows. discriminate.
Defined.

(** *** Dates *)

Lemma regexTest_overlap (p q : list Pat) (s : string) :
  regexTest p s = true -> regexTest q s = true -> patsOverlap p q = true.
Proof.
  revert q s. induction p as [|a p IH]; intros [|b q] [|c s]; simpl;
    try discriminate; try reflexivity.
  - destruct b; discriminate.
  - destruct a; discriminate.
  - destruct a; discriminate.
  - intros Hp Hq.
    assert (Hrest : regexTest p s = true /\ regexTest q s = true).
    { destruct a, b; apply andb_prop in Hp; apply andb_prop in Hq; tauto. }
    rewrite (IH q s (proj1 Hrest) (proj2 Hrest)), andb_true_r.
    destruct a as [|x], b as [|y]; simpl; apply andb_prop in Hp; apply andb_prop in Hq;
      destruct Hp as [Hp _], Hq as [Hq _]; try reflexivity.
    + apply Ascii.eqb_eq in Hq. now subst.
    + apply Ascii.eqb_eq in Hp. now subst.
    + apply Ascii.eqb_eq in Hp. apply Ascii.eqb_eq in Hq. subst. apply Ascii.eqb_refl.
Qed.

Lemma regexTest_exclusive (p q : list Pat) (s : string) :
  patsOverlap p q = false -> regexTest p s = true -> regexTest q s = false.
Proof.
  intros Hno Hp. destruct (regexTest q s) eqn:Hq; [|reflexivity].
  rewrite (regexTest_overlap p q s Hp Hq) in Hno. discriminate.
Qed.

Lemma trim_matches_nonempty (p : list Pat) (s : string) :
  p <> [] -> regexTest p (trim s) = true -> truthyStr s = true.
Proof.
  intros Hp H. destruct s; [|reflexivity].
  destruct p as [|[|c] p]; [congruence| |]; discriminate.
Qed.

Lemma standardizeDate_fixed {host : Host} (s format : string) (date : JSDate) :
  truthyStr s = true -> s <> "NULL" ->
  tryFormats dateFormats (trim s) = Some (format, date) ->
  standardizeDate (Some s) = formatDate date.
Proof.
  intros Ht Hn Hf. unfold standardizeDate. rewrite Ht.
  apply String.eqb_neq in Hn. rewrite Hn. cbn [negb orb].
  unfold standardizeBody. now rewrite Hf.
Qed.

Lemma tryFormats_slash (t : string) :
  regexTest slashPattern t = true ->
  tryFormats dateFormats t = Some ("MM/DD/YYYY", monthFirst (splitChar "/" t)).
Proof.
  intros H. unfold dateFormats. cbn [tryFormats].
  rewrite (regexTest_exclusive slashPattern _ t (eq_refl : patsOverlap slashPattern
             (d4 ++ lit "-" ++ d2 ++ lit "-" ++ d2 ++ lit " " ++ d2 ++ lit ":" ++ d2 ++ lit ":" ++ d2)
             = false) H).
  rewrite (regexTest_exclusive slashPattern _ t (eq_refl : patsOverlap slashPattern
             (d4 ++ lit "-" ++ d2 ++ lit "-" ++ d2) = false) H).
  unfold slashPattern in H. rewrite H. reflexivity.
Qed.

Lemma tryFormats_dash (t : string) :
  regexTest dashPattern t = true ->
  tryFormats dateFormats t = Some ("MM-DD-YYYY", monthFirst (splitChar "-" t)).
Proof.
  intros H. unfold dateFormats. cbn [tryFormats].
  rewrite (regexTest_exclusive dashPattern _ t (eq_refl : patsOverlap dashPattern
             (d4 ++ lit "-" ++ d2 ++ lit "-" ++ d2 ++ lit " " ++ d2 ++ lit ":" ++ d2 ++ lit ":" ++ d2)
             = false) H).
  rewrite (regexTest_exclusive dashPattern _ t (eq_refl : patsOverlap dashPattern
             (d4 ++ lit "-" ++ d2 ++ lit "-" ++ d2) = false) H).
  rewrite (regexTest_exclusive dashPattern _ t (eq_refl : patsOverlap dashPattern
             (d2 ++ lit "/" ++ d2 ++ lit "/" ++ d4) = false) H).
  rewrite (regexTest_exclusive dashPattern _ t (eq_refl : patsOverlap dashPattern
             (d2 ++ lit "/" ++ d2 ++ lit "/" ++ d2) = false) H).
  unfold dashPattern in H. rewrite H. reflexivity.
Qed.

Lemma tryFormats_none (fs : list (list Pat * string)) (t : string) :
  (forall rf, In rf fs -> regexTest (fst rf) t = false) -> tryFormats fs t = None.
Proof.
  induction fs as [|[regex fmt] fs IH]; intros H; [reflexivity|].
  cbn [tryFormats].
  pose proof (H (regex, fmt) (or_introl eq_refl)) as Hr. cbn [fst] in Hr. rewrite Hr.
  apply IH. intros rf Hin. apply H. now right.
Qed.

Lemma tryFormats_never_day_first (t format : string) (date : JSDate) :
  tryFormats dateFormats t = Some (format, date) ->
  format <> "DD/MM/YYYY" /\ format <> "DD-MM-YYYY".
Proof.
  unfold dateFormats. cbn [tryFormats].
  destruct (regexTest _ t);
    [intros H; injection H as <- _; split; discriminate|].
  destruct (regexTest _ t);
    [intros H; injection H as <- _; split; discriminate|].
  destruct (regexTest (d2 ++ lit "/" ++ d2 ++ lit "/" ++ d4) t);
    [intros H; injection H as <- _; split; discriminate|].
  destruct (regexTest _ t);
    [intros H; injection H as <- _; split; discriminate|].
  destruct (regexTest (d2 ++ lit "-" ++ d2 ++ lit "-" ++ d4) t);
    [intros H; injection H as <- _; split; discriminate|].
  discriminate.
Qed.

(** C7. A string that, once trimmed, is two digits, a slash, two digits,
    a slash and four digits is parsed under MM/DD/YYYY: the first piece
    is the month and the second the day. Likewise with hyphens, under
    MM-DD-YYYY. On no string does the loop over the formats end on the
    DD/MM/YYYY or the DD-MM-YYYY entry. *)
Theorem four_digit_year_month_first :
  forall (host : Host) (s : string),
    (regexTest slashPattern (trim s) = true ->
       tryFormats dateFormats (trim s)
       = Some ("MM/DD/YYYY", monthFirst (splitChar "/" (trim s)))
       /\ standardizeDate (Some s) = formatDate (monthFirst (splitChar "/" (trim s))))
    /\ (regexTest dashPattern (trim s) = true ->
          tryFormats dateFormats (trim s)
          = Some ("MM-DD-YYYY", monthFirst (splitChar "-" (trim s)))
          /\ standardizeDate (Some s) = formatDate (monthFirst (splitChar "-" (trim s))))
    /\ (forall format date,
          tryFormats dateFormats (trim s) = Some (format, date) ->
          format <> "DD/MM/YYYY" /\ format <> "DD-MM-YYYY").
Proof.
  intros host s.
  assert (Hnull : forall p, regexTest p (trim s) = true ->
                            patsOverlap p [PChar "N"; PChar "U"; PChar "L"; PChar "L"] = false ->
                            s <> "NULL").
  { intros p Hp Hno ->.
    rewrite (regexTest_overlap p [PChar "N"; PChar "U"; PChar "L"; PChar "L"] "NULL"
               Hp eq_refl) in Hno. discriminate. }
  split; [|split].
  - intros H. pose proof (tryFormats_slash (trim s) H) as Hf. split; [exact Hf|].
    apply (standardizeDate_fixed s "MM/DD/YYYY"); [|now apply (Hnull slashPattern)|exact Hf].
    apply (trim_matches_nonempty slashPattern); [discriminate | exact H].
  - intros H. pose proof (tryFormats_dash (trim s) H) as Hf. split; [exact Hf|].
    apply (standardizeDate_fixed s "MM-DD-YYYY"); [|now apply (Hnull dashPattern)|exact Hf].
    apply (trim_matches_nonempty dashPattern); [discriminate | exact H].
  - intros format date. apply tryFormats_never_day_first.
Qed.

Lemma four_digit_year_month_first_witness :
  regexTest slashPattern (trim " 13/02/2025 ") = true
  /\ regexTest dashPattern (trim "04-07-2025") = true
  /\ @standardizeDate Samples.silentHost (Some " 13/02/2025 ") = "01/02/2026"
  /\ @standardizeDate Samples.silentHost (Some "04-07-2025") = "04/07/2025"
  /\ "MM/DD/YYYY" <> "DD/MM/YYYY".
Proof.
  assert (H1 : regexTest slashPattern (trim " 13/02/2025 ") = true) by reflexivity.
  assert (H2 : regexTest dashPattern (trim "04-07-2025") = true) by reflexivity.
  destruct (four_digit_year_month_first Samples.silentHost " 13/02/2025 ") as [Hs [_ Hu]].
  destruct (four_digit_year_month_first Samples.silentHost "04-07-2025") as [_ [Hd _]].
  destruct (Hs H1) as [Hf1 Hv1]. destruct (Hd H2) as [_ Hv2].
  split; [exact H1|]. split; [exact H2|].
  split; [rewrite Hv1; vm_compute; reflexivity|].
  split; [rewrite Hv2; vm_compute; reflexivity|].
  exact (proj1 (Hu _ _ Hf1)).
Defined.

(** C6. [standardizeDate] is a total function into strings: the [catch]
    turns a throw of the body into a value, whatever the host. It returns
    the empty string for [null], [undefined], the empty string and
    ["NULL"]. On any other string, when no fixed pattern matches the
    trimmed string, the host's parser yields Invalid Date and the
    month-name patterns fail, it returns the trimmed string; and when
    the body of the [try] block throws, the [catch] returns the string
    as it was given. *)
Theorem standardizeDate_never_raises :
  forall host : Host,
    standardizeDate None = ""
    /\ standardizeDate (Some "") = ""
    /\ standardizeDate (Some "NULL") = ""
    /\ (forall s : string,
          s <> "" -> s <> "NULL" ->
          (forall rf, In rf dateFormats -> regexTest (fst rf) (trim s) = false) ->
          newDateOfString (trim s) = Normal InvalidDate ->
          tryMonthNames monthNameFormats (trim s) = None ->
          standardizeDate (Some s) = trim s)
    /\ (forall s : string,
          s <> "" -> s <> "NULL" ->
          standardizeBody s = Throw ->
          standardizeDate (Some s) = s).
Proof.
  intros host.
  assert (Hguard : forall s, s <> "" -> s <> "NULL" ->
                             negb (truthyStr s) || String.eqb s "NULL" = false).
  { intros s H1 H2. apply String.eqb_neq in H2. rewrite H2.
    destruct s; [congruence | reflexivity]. }
  split; [reflexivity|]. split; [reflexivity|]. split; [reflexivity|].
  split.
  - intros s H1 H2 Hfix Hgen Hmon. unfold standardizeDate.
    rewrite (Hguard s H1 H2). unfold standardizeBody.
    rewrite (tryFormats_none dateFormats (trim s) Hfix), Hgen. cbn [isInvalid negb].
    now rewrite Hmon.
  - intros s H1 H2 Hthrow. unfold standardizeDate.
    now rewrite (Hguard s H1 H2), Hthrow.
Qed.

Lemma standardizeDate_never_raises_witness :
  "  not a date " <> "" /\ "  not a date " <> "NULL"
  /\ @newDateOfString Samples.silentHost (trim "  not a date ") = Normal InvalidDate
  /\ tryMonthNames monthNameFormats (trim "  not a date ") = None
  /\ @standardizeDate Samples.silentHost (Some "  not a date ") = "not a date"
  /\ @standardizeBody Samples.throwingHost " soon " = Throw
  /\ @standardizeDate Samples.throwingHost (Some " soon ") = " soon ".
Proof.
  assert (H1 : "  not a date " <> "") by discriminate.
  assert (H2 : "  not a date " <> "NULL") by discriminate.
  assert (H3 : forall rf, In rf dateFormats ->
                          regexTest (fst rf) (trim "  not a date ") = false).
  { unfold dateFormats. cbn [In].
    intros rf [<-|[<-|[<-|[<-|[<-|[<-|[<-|[]]]]]]]]; reflexivity. }
  assert (H4 : @newDateOfString Samples.silentHost (trim "  not a date ")
               = Normal InvalidDate) by reflexivity.
  assert (H5 : tryMonthNames monthNameFormats (trim "  not a date ") = None)
    by reflexivity.
  assert (H6 : " soon " <> "") by discriminate.
  assert (H7 : " soon " <> "NULL") by discriminate.
  assert (H8 : @standardizeBody Samples.throwingHost " soon " = Throw) by reflexivity.
  destruct (standardizeDate_never_raises Samples.silentHost) as [_ [_ [_ [Hfail _]]]].
  destruct (standardizeDate_never_raises Samples.throwingHost) as [_ [_ [_ [_ Hcatch]]]].
  split; [exact H1|]. split; [exact H2|]. split; [exact H4|]. split; [exact H5|].
  split; [exact (Hfail _ H1 H2 H3 H4 H5)|]. split; [exact H8|].
  exact (Hcatch _ H6 H7 H8).
Defined.

(** *** Quantity and unit price *)

Lemma nonZero_given (v : option NumOrStr) (u : NumOrStr) :
  v = Some u -> truthy u = true -> nonZero v = Some u.
Proof.
  intros -> Ht. destruct u as [x|s]; simpl in *.
  - rewrite Ht. unfold truthyNum in Ht. apply andb_prop in Ht.
    unfold neqZero. now rewrite (proj2 Ht).
  - now rewrite Ht.
Qed.

Lemma nonZero_notGiven (v : option NumOrStr) : notGiven v -> nonZero v = None.
Proof.
  intros [->|[u [-> Ht]]]; [reflexivity|].
  destruct u as [x|s]; simpl in *; now rewrite Ht.
Qed.

Lemma readsNonZero_truthy (u : NumOrStr) : readsNonZero u = true -> truthy u = true.
Proof.
  unfold readsNonZero. destruct u as [x|s]; cbn [parseFloatToString truthy].
  - unfold parseFloatOfNumber, truthyNum.
    destruct (x =? 0)%float eqn:E; [discriminate | rewrite E; intros H; exact H].
  - destruct s; [discriminate | reflexivity].
Qed.

(** C8, as amended. The invoice-side quantity is the quantity field
    parsed as a float: an absent field and the empty string read as 0,
    a number reads as itself, and any other string reads as [parseFloat]
    reads it, which is [NaN], not 0, when it does not start with a
    number. The unit price is the unit price field when that field
    reads as a number other than 0; else, when the unit price field is
    absent, 0, [NaN] or empty, the total price divided by the quantity
    when the total price reads as a number other than 0 and the
    quantity is not equal to 0; else, when the total price field too is
    absent, 0, [NaN] or empty, or the quantity is equal to 0, the legacy
    price field, read as the quantity field is, 0 when absent. *)
Theorem invoice_side_quantity_and_price :
  forall item : LineItem,
    ((quantity item = None \/ quantity item = Some (JStr "")) ->
       invoiceQty item = 0%float)
    /\ (forall x, quantity item = Some (JNum x) ->
          invoiceQty item = (if x =? 0 then 0 else x)%float)
    /\ (forall s, quantity item = Some (JStr s) -> s <> "" ->
          invoiceQty item = parseFloat s)
    /\ (forall u, unitPrice item = Some u -> readsNonZero u = true ->
          invoicePrice item = parseFloatToString u)
    /\ (forall x, unitPrice item = Some (JNum x) -> truthyNum x = true ->
          invoicePrice item = x)
    /\ (forall t, notGiven (unitPrice item) ->
          totalPrice item = Some t -> readsNonZero t = true ->
          (invoiceQty item =? 0)%float = false ->
          invoicePrice item = (parseFloatToString t / invoiceQty item)%float)
    /\ (notGiven (unitPrice item) ->
          notGiven (totalPrice item) \/ (invoiceQty item =? 0)%float = true ->
          invoicePrice item = parseFloatOrZero (price item))
    /\ parseFloatOrZero None = 0%float.
Proof.
  intros item. unfold invoiceQty.
  split; [intros [->| ->]; reflexivity|].
  split; [intros x ->; reflexivity|].
  split.
  { intros s -> Hs. destruct s; [congruence | reflexivity]. }
  split.
  { intros u Hu Hr. unfold invoicePrice.
    now rewrite (nonZero_given _ u Hu (readsNonZero_truthy u Hr)). }
  split.
  { intros x Hu Ht. unfold invoicePrice.
    rewrite (nonZero_given _ (JNum x) Hu Ht). cbn [parseFloatToString].
    unfold parseFloatOfNumber. unfold truthyNum in Ht. apply andb_prop in Ht.
    destruct Ht as [_ Hz]. now destruct (x =? 0)%float. }
  split.
  { intros t Hu Ht Hr Hq. unfold invoicePrice.
    rewrite (nonZero_notGiven _ Hu), (nonZero_given _ t Ht (readsNonZero_truthy t Hr)).
    unfold neqZero, invoiceQty. now rewrite Hq. }
  split; [|reflexivity].
  intros Hu Hrest. unfold invoicePrice. rewrite (nonZero_notGiven _ Hu).
  destruct Hrest as [Ht|Hq].
  - now rewrite (nonZero_notGiven _ Ht).
  - destruct (nonZero (totalPrice item)); [|reflexivity].
    unfold neqZero, invoiceQty. now rewrite Hq.
Qed.

Lemma invoice_side_quantity_and_price_witness :
  let item := {| productName := Some "Bolt"; quantity := Some (JStr "4");
                 unitPrice := None; totalPrice := Some (JNum 10);
                 price := Some (JNum 9); deliveryDate := None |} in
  quantity item = Some (JStr "4") /\ "4" <> ""
  /\ notGiven (unitPrice item)
  /\ totalPrice item = Some (JNum 10) /\ readsNonZero (JNum 10) = true
  /\ (invoiceQty item =? 0)%float = false
  /\ invoiceQty item = 4%float
  /\ invoicePrice item = 2.5%float.
Proof.
  intros item.
  assert (H1 : quantity item = Some (JStr "4")) by reflexivity.
  assert (H2 : "4" <> "") by discriminate.
  assert (H3 : notGiven (unitPrice item)) by (left; reflexivity).
  assert (H4 : totalPrice item = Some (JNum 10)) by reflexivity.
  assert (H5 : readsNonZero (JNum 10) = true) by reflexivity.
  assert (H6 : (invoiceQty item =? 0)%float = false) by reflexivity.
  destruct (invoice_side_quantity_and_price item) as [_ [_ [Hq [_ [_ [Ht _]]]]]].
  split; [exact H1|]. split; [exact H2|]. split; [exact H3|]. split; [exact H4|].
  split; [exact H5|]. split; [exact H6|].
  split; [rewrite (Hq "4" H1 H2); reflexivity|].
  rewrite (Ht (JNum 10) H3 H4 H5 H6). reflexivity.
Defined.

(** C8, as stated, fails. The quantity ["abc"] is not parsable; the
    invoice-side quantity of the item is [NaN], not 0. *)
Lemma invoice_side_counterexample :
  quantity Samples.wordQtyItem = Some (JStr "abc")
  /\ is_nan (parseFloat "abc") = true
  /\ is_nan (invoiceQty Samples.wordQtyItem) = true
  /\ invoiceQty Samples.wordQtyItem <> 0%float.
Proof.
  split; [reflexivity|]. split; [reflexivity|]. split; [reflexivity|].
  intros E. apply (f_equal is_nan) in E. vm_compute in E. discriminate.
Qed.

(** *** The tolerance tests of selection and of classification

    The selection subtracts the invoice value from the record's value,
    the classification the other way round. *)

Lemma SFabs_round_aux (prec emax : Z) (s s' : bool) (m e : Z) (l : SpecFloat.location) :
  SFabs (binary_round_aux prec emax s m e l) = SFabs (binary_round_aux prec emax s' m e l).
Proof.
  unfold binary_round_aux.
  destruct (shr_fexp prec emax m e l) as [mrs e'].
  destruct (shr_fexp prec emax _ e' loc_Exact) as [mrs' e''].
  destruct (shr_m mrs'); try reflexivity.
  destruct (Z.leb e'' (emax - prec)); reflexivity.
Qed.

Lemma SFabs_normalize_opp (prec emax m e : Z) :
  SFabs (binary_normalize prec emax (- m) e false)
  = SFabs (binary_normalize prec emax m e false).
Proof.
  destruct m; simpl; try reflexivity; unfold binary_round;
    destruct (shl_align _ _ _); apply SFabs_round_aux.
Qed.

Lemma SFabs_sub_sym (prec emax : Z) (x y : spec_float) :
  SFabs (SFsub prec emax x y) = SFabs (SFsub prec emax y x).
Proof.
  destruct x as [sx|sx| |sx mx ex], y as [sy|sy| |sy my ey]; simpl;
    try reflexivity; try (destruct sx, sy; reflexivity).
  rewrite (Z.min_comm ey ex).
  rewrite <- SFabs_normalize_opp. f_equal. f_equal. lia.
Qed.

Lemma abs_sub_sym (a b : float) : (abs (a - b) = abs (b - a))%float.
Proof.
  apply Prim2SF_inj. rewrite !FloatAxioms.abs_spec, !FloatAxioms.sub_spec.
  apply SFabs_sub_sym.
Qed.

Lemma flags_are_tolerance_tests (opts : Opts) (item : LineItem) (m : PurchaseOrderRecord) :
  qtyFlag opts item m = qtyWithin opts (invoiceQty item) m
  /\ priceFlag opts item m = priceWithin opts (invoicePrice item) m.
Proof.
  unfold qtyFlag, priceFlag, qtyWithin, priceWithin.
  now rewrite (abs_sub_sym (invoiceQty item)), (abs_sub_sym (invoicePrice item)).
Qed.

(** X1. When some candidate of a line item has quantity and price both
    within tolerance, the first such candidate is the selected match,
    and the line item emits an INVOICE row and a PO row that both have
    the quantity and price flags set; with [requireDateMatch] off both
    rows have status MATCH. *)
Theorem exact_candidate_gives_match :
  forall (host : Host) (opts : Opts) (invoiceData : InvoiceData)
         (pos : list PurchaseOrderRecord) (item : LineItem) (c : PurchaseOrderRecord),
    find (bothWithin opts (invoiceQty item) (invoicePrice item))
         (poCandidates opts pos (orEmpty (productName item))) = Some c ->
    selectedMatch opts pos item = Some c
    /\ exists ri rp,
         itemRows opts invoiceData pos item = [ri; rp]
         /\ Source ri = INVOICE /\ Source rp = PO
         /\ Qty rp = parseFloatToString (PurchaseQty c)
         /\ Unit_Price rp = parseFloatToString (PurchasePrice c)
         /\ _qty_match ri = Some true /\ _price_match ri = Some true
         /\ _qty_match rp = Some true /\ _price_match rp = Some true
         /\ (optRequireDateMatch opts = false ->
             Status ri = MATCH /\ Status rp = MATCH).
Proof.
  intros host opts invoiceData pos item c Hfind.
  assert (Hm : selectedMatch opts pos item = Some c).
  { unfold selectedMatch. rewrite poMatch_find. now rewrite Hfind. }
  split; [exact Hm|].
  destruct (find_some _ _ Hfind) as [_ Hboth]. unfold bothWithin in Hboth.
  apply andb_prop in Hboth. destruct Hboth as [Hq Hp].
  destruct (flags_are_tolerance_tests opts item c) as [Eq Ep].
  rewrite Hq in Eq. rewrite Hp in Ep.
  destruct (itemRows_matched opts invoiceData pos item c Hm)
    as [ri [rp [Hrows [Hi [Hpo Hflags]]]]].
  destruct (Hflags ri (or_introl eq_refl)) as [Si [Qi [Pi _]]].
  destruct (Hflags rp (or_intror (or_introl eq_refl))) as [Sp [Qp [Pp _]]].
  destruct Hpo as [Hsp [_ [_ [Hqp [Hup _]]]]].
  exists ri, rp.
  split; [exact Hrows|]. split; [exact (proj1 Hi)|]. split; [exact Hsp|].
  split; [exact Hqp|]. split; [exact Hup|].
  split; [now rewrite Qi, Eq|]. split; [now rewrite Pi, Ep|].
  split; [now rewrite Qp, Eq|]. split; [now rewrite Pp, Ep|].
  intros Hoff. rewrite Si, Sp, Eq, Ep. unfold dateFlag. rewrite Hoff.
  split; reflexivity.
Qed.

Lemma exact_candidate_gives_match_witness :
  let opts := withDefaults noOptions in
  let pos := [Samples.widgetPO8; Samples.widgetPO] in
  find (bothWithin opts (invoiceQty Samples.widgetItem) (invoicePrice Samples.widgetItem))
       (poCandidates opts pos (orEmpty (productName Samples.widgetItem)))
  = Some Samples.widgetPO
  /\ optRequireDateMatch opts = false
  /\ selectedMatch opts pos Samples.widgetItem = Some Samples.widgetPO
  /\ exists ri rp,
       @itemRows Samples.silentHost opts Samples.widgetInvoice pos Samples.widgetItem
       = [ri; rp]
       /\ Status ri = MATCH /\ Status rp = MATCH.
Proof.
  intros opts pos.
  assert (H1 : find (bothWithin opts (invoiceQty Samples.widgetItem)
                                (invoicePrice Samples.widgetItem))
                    (poCandidates opts pos (orEmpty (productName Samples.widgetItem)))
               = Some Samples.widgetPO) by (vm_compute; reflexivity).
  assert (H2 : optRequireDateMatch opts = false) by reflexivity.
  destruct (exact_candidate_gives_match Samples.silentHost opts Samples.widgetInvoice
              pos Samples.widgetItem Samples.widgetPO H1)
    as [Hm [ri [rp [Hrows [_ [_ [_ [_ [_ [_ [_ [_ Hst]]]]]]]]]]]].
  split; [exact H1|]. split; [exact H2|]. split; [exact Hm|].
  exists ri, rp. split; [exact Hrows|]. exact (Hst H2).
Defined.

(** X2. A line item is left without a match exactly when its candidate
    pool is empty, and exactly then its only row has status NO MATCH. *)
Theorem unmatched_iff_empty_pool :
  forall (host : Host) (opts : Opts) (invoiceData : InvoiceData)
         (pos : list PurchaseOrderRecord) (item : LineItem),
    (selectedMatch opts pos item = None
     <-> poCandidates opts pos (orEmpty (productName item)) = [])
    /\ (poCandidates opts pos (orEmpty (productName item)) = []
        <-> List.map Status (itemRows opts invoiceData pos item) = [NO_MATCH]).
Proof.
  intros host opts invoiceData pos item.
  assert (H : selectedMatch opts pos item = None
              <-> poCandidates opts pos (orEmpty (productName item)) = []).
  { unfold selectedMatch. split.
    - intros Hn.
      destruct (poCandidates opts pos (orEmpty (productName item))) as [|c l] eqn:E;
        [reflexivity|].
      destruct (poMatch_some opts (invoiceQty item) (invoicePrice item) (c :: l))
        as [m [Hm _]]; [discriminate | congruence].
    - intros ->. reflexivity. }
  split; [exact H|]. rewrite <- H. split.
  - intros Hn. destruct (itemRows_unmatched opts invoiceData pos item Hn)
      as [ri [Hrows [_ [_ [_ [_ [_ [_ [_ [Hst _]]]]]]]]]].
    rewrite Hrows. simpl. now rewrite Hst.
  - intros Hrows. destruct (selectedMatch opts pos item) as [m|] eqn:Hm; [|reflexivity].
    destruct (itemRows_matched opts invoiceData pos item m Hm) as [ri [rp [E _]]].
    rewrite E in Hrows. discriminate.
Qed.

Lemma unmatched_iff_empty_pool_witness :
  poCandidates (withDefaults noOptions) [Samples.widgetPO] "Steel Gasket" = []
  /\ selectedMatch (withDefaults noOptions) [Samples.widgetPO]
                   (Samples.mkItem "Steel Gasket" (Some (JNum 1)) None) = None.
Proof.
  assert (H : poCandidates (withDefaults noOptions) [Samples.widgetPO] "Steel Gasket" = [])
    by reflexivity.
  split; [exact H|].
  exact (proj2 (proj1 (unmatched_iff_empty_pool Samples.silentHost (withDefaults noOptions)
                         Samples.widgetInvoice [Samples.widgetPO]
                         (Samples.mkItem "Steel Gasket" (Some (JNum 1)) None))) H).
Defined.

(** X3. A string that, once trimmed, is two digits, a slash, two digits,
    a slash and two digits is parsed under MM/DD/YY, month first, with
    the year expanded: 0 to 49 to 2000 to 2049, 50 to 99 to 1950 to
    1999. *)
Theorem two_digit_year_expansion :
  forall (host : Host) (s : string),
    regexTest shortYearPattern (trim s) = true ->
    let pieces := splitChar "/" (trim s) in
    let date := newDate (option_map expandYear (field pieces 2))
                        (minus1 (field pieces 0)) (field pieces 1) in
    tryFormats dateFormats (trim s) = Some ("MM/DD/YY", date)
    /\ standardizeDate (Some s) = formatDate date.
Proof.
  intros host s H pieces date.
  assert (Hf : tryFormats dateFormats (trim s) = Some ("MM/DD/YY", date)).
  { unfold dateFormats. cbn [tryFormats].
    rewrite (regexTest_exclusive shortYearPattern _ (trim s)
               (eq_refl : patsOverlap shortYearPattern
                  (d4 ++ lit "-" ++ d2 ++ lit "-" ++ d2 ++ lit " " ++ d2 ++ lit ":" ++ d2
                   ++ lit ":" ++ d2) = false) H).
    rewrite (regexTest_exclusive shortYearPattern _ (trim s)
               (eq_refl : patsOverlap shortYearPattern
                  (d4 ++ lit "-" ++ d2 ++ lit "-" ++ d2) = false) H).
    rewrite (regexTest_exclusive shortYearPattern _ (trim s)
               (eq_refl : patsOverlap shortYearPattern
                  (d2 ++ lit "/" ++ d2 ++ lit "/" ++ d4) = false) H).
    unfold shortYearPattern in H. rewrite H. reflexivity. }
  split; [exact Hf|].
  apply (standardizeDate_fixed s "MM/DD/YY"); [| |exact Hf].
  - apply (trim_matches_nonempty shortYearPattern); [discriminate | exact H].
  - intros ->. vm_compute in H. discriminate.
Qed.

Lemma two_digit_year_expansion_witness :
  regexTest shortYearPattern (trim "04/07/75") = true
  /\ @standardizeDate Samples.silentHost (Some "04/07/75") = "04/07/1975".
Proof.
  assert (H : regexTest shortYearPattern (trim "04/07/75") = true) by reflexivity.
  split; [exact H|].
  rewrite (proj2 (two_digit_year_expansion Samples.silentHost "04/07/75" H)).
  vm_compute. reflexivity.
Defined.

(** X4. [datesEqual] is string equality: it holds of two strings exactly
    when they are the same string, empty or not. The special case for
    empty strings decides nothing that [===] would not. *)
Theorem datesEqual_characterised :
  forall date1 date2 : string,
    datesEqual date1 date2 = String.eqb date1 date2
    /\ (datesEqual date1 date2 = true <-> date1 = date2).
Proof.
  intros date1 date2.
  assert (H : datesEqual date1 date2 = String.eqb date1 date2).
  { unfold datesEqual. destruct date1 as [|a d1], date2 as [|b d2]; reflexivity. }
  split; [exact H|]. rewrite H. apply String.eqb_eq.
Qed.

(** *** Invariants of the result list *)

Import Display.

Section ResultInvariants.
Context {host : Host}.
Variables (opts : Opts) (invoiceData : InvoiceData) (pos : list PurchaseOrderRecord).

Lemma itemRows_shape (item : LineItem) :
  exists ri rest,
    itemRows opts invoiceData pos item = ri :: rest
    /\ Source ri = INVOICE
    /\ Item_Description ri = orEmpty (productName item)
    /\ Forall (fun r => Source r = PO) rest
    /\ (rest = []
        \/ exists m rp, selectedMatch opts pos item = Some m /\ rest = [rp]).
Proof.
  destruct (selectedMatch opts pos item) as [m|] eqn:Hm.
  - destruct (itemRows_matched opts invoiceData pos item m Hm)
      as [ri [rp [Hrows [Hi [Hp _]]]]].
    exists ri, [rp]. split; [exact Hrows|].
    split; [exact (proj1 Hi)|]. split; [exact (proj1 (proj2 (proj2 Hi)))|].
    split; [constructor; [exact (proj1 Hp) | constructor]|].
    right. exists m, rp. split; reflexivity.
  - destruct (itemRows_unmatched opts invoiceData pos item Hm)
      as [ri [Hrows [Hs [_ [Hd _]]]]].
    exists ri, []. split; [exact Hrows|]. split; [exact Hs|]. split; [exact Hd|].
    split; [constructor | now left].
Qed.

Lemma filter_invoice_po_rows (l : list ReconciliationResult) :
  Forall (fun r => Source r = PO) l -> filter isInvoiceRow l = [].
Proof.
  induction 1 as [|r l Hr _ IH]; [reflexivity|].
  cbn [filter]. unfold isInvoiceRow at 1. now rewrite Hr.
Qed.

Lemma invoice_rows_of_items (items : list LineItem) :
  List.map Item_Description
           (filter isInvoiceRow (flat_map (itemRows opts invoiceData pos) items))
  = List.map (fun item => orEmpty (productName item)) items.
Proof.
  induction items as [|item items IH]; [reflexivity|].
  cbn [flat_map List.map]. rewrite filter_app, map_app, IH.
  destruct (itemRows_shape item) as [ri [rest [-> [Hs [Hd [Hrest _]]]]]].
  cbn [filter]. unfold isInvoiceRow at 1. rewrite Hs.
  rewrite (filter_invoice_po_rows rest Hrest). cbn [List.map app]. now rewrite Hd.
Qed.

End ResultInvariants.

(** X5. On a non-empty list of purchase-order records the INVOICE rows
    of the result are, in order, the line items of the invoice: their
    descriptions are the product names of the line items one by one.
    Hence the summary's [totalItems] is the number of line items. *)
Theorem invoice_rows_are_line_items :
  forall (host : Host) (invoiceData : InvoiceData)
         (poRecords : list PurchaseOrderRecord) (options : MatchingOptions),
    poRecords <> [] ->
    let results := reconcileInvoiceData invoiceData poRecords options in
    let items := orDefault (lineItems invoiceData) [] in
    List.map Item_Description (filter isInvoiceRow results)
    = List.map (fun item => orEmpty (productName item)) items
    /\ totalItems (generateReconciliationSummary results) = List.length items.
Proof.
  intros host invoiceData poRecords options Hne results items.
  assert (H : List.map Item_Description (filter isInvoiceRow results)
              = List.map (fun item => orEmpty (productName item)) items).
  { subst results. rewrite (reconcile_rows invoiceData poRecords options Hne).
    apply invoice_rows_of_items. }
  split; [exact H|].
  unfold generateReconciliationSummary. cbn [totalItems].
  rewrite <- (length_map Item_Description), H. apply length_map.
Qed.

Lemma invoice_rows_are_line_items_witness :
  [Samples.widgetPO] <> []
  /\ totalItems (generateReconciliationSummary
                   (@reconcileInvoiceData Samples.silentHost Samples.widgetInvoice
                      [Samples.widgetPO] noOptions)) = 1%nat.
Proof.
  assert (Hne : [Samples.widgetPO] <> []) by discriminate.
  split; [exact Hne|].
  exact (proj2 (invoice_rows_are_line_items Samples.silentHost Samples.widgetInvoice
                  [Samples.widgetPO] noOptions Hne)).
Defined.

Lemma firstNonEmpty_cases (A : Type) (a b c : list A) :
  firstNonEmpty a b c = a \/ firstNonEmpty a b c = b \/ firstNonEmpty a b c = c.
Proof. destruct a, b; simpl; auto. Qed.

Lemma poCandidates_filter (opts : Opts) (pos : list PurchaseOrderRecord) (itemName : string) :
  exists p : PurchaseOrderRecord -> bool, poCandidates opts pos itemName = filter p pos.
Proof.
  rewrite poCandidates_stages.
  destruct (firstNonEmpty_cases _ (stageItemCode pos itemName) (stageDescription pos itemName)
              (stageKeyword opts pos itemName)) as [E|[E|E]]; rewrite E; eexists; reflexivity.
Qed.

Lemma selectedMatch_in (opts : Opts) (pos : list PurchaseOrderRecord) (item : LineItem)
      (m : PurchaseOrderRecord) :
  selectedMatch opts pos item = Some m -> In m pos.
Proof.
  unfold selectedMatch. intros Hm.
  destruct (poCandidates_filter opts pos (orEmpty (productName item))) as [p Hp].
  destruct (poCandidates opts pos (orEmpty (productName item))) as [|c l] eqn:E;
    [discriminate|].
  destruct (poMatch_some opts (invoiceQty item) (invoicePrice item) (c :: l))
    as [m' [Hm' Hin]]; [discriminate|].
  rewrite Hm in Hm'. injection Hm' as <-.
  rewrite Hp in Hin. now apply filter_In in Hin.
Qed.

(** X6. A line item is only ever matched to a record of the invoice's
    own purchase order: every row of the result, INVOICE or PO, carries
    the PO number of the invoice, and the candidate pool of a line item
    is the order's records filtered by one predicate, so it keeps their
    order and repeats none. *)
Theorem rows_carry_invoice_po_number :
  forall (host : Host) (invoiceData : InvoiceData)
         (poRecords : list PurchaseOrderRecord) (options : MatchingOptions),
    (forall r, In r (reconcileInvoiceData invoiceData poRecords options) ->
               PO_num r = orEmpty (poNumber invoiceData))
    /\ (forall itemName, exists p : PurchaseOrderRecord -> bool,
          poCandidates (withDefaults options)
                       (matchingPOs (orEmpty (poNumber invoiceData)) poRecords) itemName
          = filter p (filter (fun po => String.eqb (PurchaseOrderID po)
                                                   (orEmpty (poNumber invoiceData)))
                             poRecords)).
Proof.
  intros host invoiceData poRecords options. split.
  - destruct poRecords as [|po0 poRecords]; [intros r []|].
    rewrite (reconcile_rows invoiceData (po0 :: poRecords) options); [|discriminate].
    set (pos := matchingPOs _ _). set (opts := withDefaults options).
    intros r Hr. apply in_flat_map in Hr. destruct Hr as [item [_ Hr]].
    destruct (selectedMatch opts pos item) as [m|] eqn:Hm.
    + destruct (itemRows_matched opts invoiceData pos item m Hm)
        as [ri [rp [Hrows [Hi [Hp _]]]]].
      rewrite Hrows in Hr. destruct Hr as [<-|[<-|[]]].
      * exact (proj1 (proj2 Hi)).
      * rewrite (proj1 (proj2 Hp)).
        pose proof (selectedMatch_in opts pos item m Hm) as Hin.
        unfold pos, matchingPOs in Hin. apply filter_In in Hin.
        now apply String.eqb_eq.
    + destruct (itemRows_unmatched opts invoiceData pos item Hm)
        as [ri [Hrows [_ [Hn _]]]].
      rewrite Hrows in Hr. destruct Hr as [<-|[]]. exact Hn.
  - intros itemName. apply poCandidates_filter.
Qed.

Section RowFacts.
Context {host : Host}.
Variables (opts : Opts) (invoiceData : InvoiceData) (pos : list PurchaseOrderRecord).

Lemma itemRows_row_facts (item : LineItem) (r : ReconciliationResult) :
  In r (itemRows opts invoiceData pos item) ->
  Total_Price r = (Qty r * Unit_Price r)%float
  /\ (Status r = NO_MATCH -> Source r = INVOICE /\ hasNoFlag r = true)
  /\ (Status r <> NO_MATCH -> hasAllFlags r = true).
Proof.
  intros Hr. destruct (selectedMatch opts pos item) as [m|] eqn:Hm.
  - destruct (itemRows_matched opts invoiceData pos item m Hm)
      as [ri [rp [Hrows [Hi [Hp Hflags]]]]].
    rewrite Hrows in Hr. destruct (Hflags r Hr) as [Hst [Fq [Fp Fd]]].
    assert (Hnn : Status r <> NO_MATCH).
    { rewrite Hst. destruct (statusOf_cases (qtyFlag opts item m) (priceFlag opts item m)
                               (dateFlag opts invoiceData item m)) as [E|E];
        rewrite E; discriminate. }
    split.
    + destruct Hi as [_ [_ [_ [Hq [Hu [Ht _]]]]]].
      destruct Hp as [_ [_ [_ [Hq' [Hu' [Ht' _]]]]]].
      destruct Hr as [<-|[<-|[]]]; congruence.
    + split; [intros E; contradiction|].
      intros _. unfold hasAllFlags. now rewrite Fq, Fp, Fd.
  - destruct (itemRows_unmatched opts invoiceData pos item Hm)
      as [ri [Hrows [Hs [_ [_ [Hq [Hu [Ht [_ [Hst [F1 [F2 F3]]]]]]]]]]]].
    rewrite Hrows in Hr. destruct Hr as [<-|[]].
    split; [congruence|]. split.
    + intros _. split; [exact Hs|]. unfold hasNoFlag. now rewrite F1, F2, F3.
    + intros Hn. contradiction.
Qed.

Lemma itemRows_counts (item : LineItem) :
  let rows := itemRows opts invoiceData pos item in
  List.length (filter isPORow rows)
  = (List.length (filter (hasStatus MATCH) (filter isInvoiceRow rows))
     + List.length (filter (hasStatus DISCREPANCY) (filter isInvoiceRow rows)))%nat
  /\ List.length (filter isInvoiceRow rows) = 1%nat.
Proof.
  intros rows. subst rows. destruct (selectedMatch opts pos item) as [m|] eqn:Hm.
  - destruct (itemRows_matched opts invoiceData pos item m Hm)
      as [ri [rp [Hrows [Hi [Hp Hflags]]]]].
    rewrite Hrows. destruct (Hflags ri (or_introl eq_refl)) as [Hst _].
    unfold isPORow. cbn [filter]. unfold isInvoiceRow.
    rewrite (proj1 Hi), (proj1 Hp). cbn [negb filter]. unfold hasStatus. rewrite Hst.
    destruct (statusOf_cases (qtyFlag opts item m) (priceFlag opts item m)
                (dateFlag opts invoiceData item m)) as [E|E]; rewrite E; split; reflexivity.
  - destruct (itemRows_unmatched opts invoiceData pos item Hm)
      as [ri [Hrows [Hs [_ [_ [_ [_ [_ [_ [Hst _]]]]]]]]]].
    rewrite Hrows. unfold isPORow. cbn [filter]. unfold isInvoiceRow.
    rewrite Hs. cbn [negb filter]. unfold hasStatus. rewrite Hst. split; reflexivity.
Qed.

Lemma flat_map_counts (items : list LineItem) :
  let rows := flat_map (itemRows opts invoiceData pos) items in
  List.length (filter isPORow rows)
  = (List.length (filter (hasStatus MATCH) (filter isInvoiceRow rows))
     + List.length (filter (hasStatus DISCREPANCY) (filter isInvoiceRow rows)))%nat.
Proof.
  induction items as [|item items IH]; [reflexivity|].
  cbn [flat_map]. cbn zeta in *. rewrite !filter_app, !length_app.
  rewrite IH, (proj1 (itemRows_counts item)). lia.
Qed.

End RowFacts.

(** X7. Every row of every result has [Total Price = Qty * Unit Price];
    a row with status NO MATCH is an INVOICE row without any of the
    three flags, and a row with status MATCH or DISCREPANCY has all
    three. *)
Theorem row_invariants :
  forall (host : Host) (invoiceData : InvoiceData)
         (poRecords : list PurchaseOrderRecord) (options : MatchingOptions)
         (r : ReconciliationResult),
    In r (reconcileInvoiceData invoiceData poRecords options) ->
    Total_Price r = (Qty r * Unit_Price r)%float
    /\ (Status r = NO_MATCH -> Source r = INVOICE /\ hasNoFlag r = true)
    /\ (Status r <> NO_MATCH -> hasAllFlags r = true).
Proof.
  intros host invoiceData poRecords options r.
  destruct poRecords as [|po0 poRecords]; [intros []|].
  rewrite (reconcile_rows invoiceData (po0 :: poRecords) options); [|discriminate].
  intros Hr. apply in_flat_map in Hr. destruct Hr as [item [_ Hr]].
  exact (itemRows_row_facts _ _ _ item r Hr).
Qed.

Lemma row_invariants_witness :
  let results := @reconcileInvoiceData Samples.silentHost Samples.widgetInvoice
                   [Samples.widgetPO8] noOptions in
  exists r, In r results
            /\ Status r <> NO_MATCH
            /\ Total_Price r = (Qty r * Unit_Price r)%float
            /\ hasAllFlags r = true.
Proof.
  intros results.
  exists (hd (Samples.invoiceRow MATCH) results).
  assert (Hin : In (hd (Samples.invoiceRow MATCH) results) results)
    by (vm_compute; left; reflexivity).
  assert (Hst : Status (hd (Samples.invoiceRow MATCH) results) <> NO_MATCH)
    by (vm_compute; discriminate).
  destruct (row_invariants Samples.silentHost Samples.widgetInvoice
              [Samples.widgetPO8] noOptions _ Hin) as [Ht [_ Hf]].
  split; [exact Hin|]. split; [exact Hst|]. split; [exact Ht | exact (Hf Hst)].
Defined.

(** X8. In every result the number of PO rows is [matches +
    discrepancies] of its summary, and the length of the result is
    [totalItems + matches + discrepancies]: a matched line item counts
    once and contributes two rows. *)
Theorem po_rows_counted_by_summary :
  forall (host : Host) (invoiceData : InvoiceData)
         (poRecords : list PurchaseOrderRecord) (options : MatchingOptions),
    let results := reconcileInvoiceData invoiceData poRecords options in
    let s := generateReconciliationSummary results in
    List.length (filter isPORow results) = (matches s + discrepancies s)%nat
    /\ List.length results = (totalItems s + matches s + discrepancies s)%nat.
Proof.
  intros host invoiceData poRecords options results s.
  assert (Hpo : List.length (filter isPORow results) = (matches s + discrepancies s)%nat).
  { subst s results. unfold generateReconciliationSummary.
    cbn [matches discrepancies].
    destruct poRecords as [|po0 poRecords]; [reflexivity|].
    rewrite (reconcile_rows invoiceData (po0 :: poRecords) options); [|discriminate].
    apply flat_map_counts. }
  split; [exact Hpo|].
  rewrite <- Nat.add_assoc, <- Hpo. subst s. unfold generateReconciliationSummary.
  cbn [totalItems]. unfold isPORow.
  clear Hpo. induction results as [|r l IH]; [reflexivity|].
  cbn [filter List.length]. destruct (isInvoiceRow r); cbn [negb List.length]; lia.
Qed.

Lemma datesEqual_eqb (date1 date2 : string) :
  datesEqual date1 date2 = String.eqb date1 date2
  /\ (datesEqual date1 date2 = true <-> date1 = date2).
Proof.
  assert (H : datesEqual date1 date2 = String.eqb date1 date2).
  { unfold datesEqual. destruct date1 as [|a d1], date2 as [|b d2]; reflexivity. }
  split; [exact H|]. rewrite H. apply String.eqb_eq.
Qed.

(** X9. With [requireDateMatch] on, as the reconcile route calls the
    engine, the two rows of a matched line item have status MATCH only
    if they carry the same normalized date string; if the two strings
    differ the status of both is DISCREPANCY, whatever the quantity and
    the price. *)
Theorem match_requires_equal_dates :
  forall (host : Host) (opts : Opts) (invoiceData : InvoiceData)
         (pos : list PurchaseOrderRecord) (item : LineItem) (m : PurchaseOrderRecord),
    optRequireDateMatch opts = true ->
    selectedMatch opts pos item = Some m ->
    exists ri rp,
      itemRows opts invoiceData pos item = [ri; rp]
      /\ (Status ri = MATCH -> Date ri = Date rp)
      /\ (Date ri <> Date rp -> Status ri = DISCREPANCY /\ Status rp = DISCREPANCY).
Proof.
  intros host opts invoiceData pos item m Hon Hm.
  destruct (itemRows_matched opts invoiceData pos item m Hm)
    as [ri [rp [Hrows [Hi [Hp Hflags]]]]].
  exists ri, rp. split; [exact Hrows|].
  destruct Hi as [_ [_ [_ [_ [_ [_ Hdi]]]]]]. destruct Hp as [_ [_ [_ [_ [_ [_ Hdp]]]]]].
  destruct (Hflags ri (or_introl eq_refl)) as [Si _].
  destruct (Hflags rp (or_intror (or_introl eq_refl))) as [Sp _].
  assert (Hd : dateFlag opts invoiceData item m = true <-> Date ri = Date rp).
  { unfold dateFlag. rewrite Hon, Hdi, Hdp.
    exact (proj2 (datesEqual_eqb _ _)). }
  split.
  - rewrite Si. intros E. apply statusOf_match in E. now apply Hd.
  - intros Hne. rewrite Si, Sp.
    destruct (dateFlag opts invoiceData item m) eqn:E; [now elim Hne; apply Hd|].
    unfold statusOf. rewrite !andb_false_r. split; reflexivity.
Qed.

Lemma match_requires_equal_dates_witness :
  let opts := {| optQuantityTolerance := 0.01; optPriceTolerance := 0.01;
                 optMinKeywordMatches := 3; optRequireDateMatch := true |} in
  optRequireDateMatch opts = true
  /\ selectedMatch opts [Samples.widgetPO] Samples.widgetItem = Some Samples.widgetPO
  /\ List.map Status (@itemRows Samples.silentHost opts Samples.widgetInvoice
                        [Samples.widgetPO] Samples.widgetItem)
     = [DISCREPANCY; DISCREPANCY].
Proof.
  intros opts.
  assert (H1 : optRequireDateMatch opts = true) by reflexivity.
  assert (H2 : selectedMatch opts [Samples.widgetPO] Samples.widgetItem
               = Some Samples.widgetPO) by (vm_compute; reflexivity).
  split; [exact H1|]. split; [exact H2|].
  destruct (match_requires_equal_dates Samples.silentHost opts Samples.widgetInvoice
              [Samples.widgetPO] Samples.widgetItem Samples.widgetPO H1 H2)
    as [ri [rp [Hrows [_ Hdiff]]]].
  rewrite Hrows. cbn [List.map].
  assert (Hne : Date ri <> Date rp).
  { assert (E : List.map Date [ri; rp] = [""; "01/01/2025"])
      by (rewrite <- Hrows; vm_compute; reflexivity).
    injection E as -> ->. discriminate. }
  destruct (Hdiff Hne) as [-> ->]. reflexivity.
Defined.

Lemma filter_map_same (A : Type) (f : A -> A) (p : A -> bool) (l : list A) :
  (forall x, p (f x) = p x) -> filter p (List.map f l) = List.map f (filter p l).
Proof.
  intros H. induction l as [|x l IH]; [reflexivity|].
  cbn [List.map filter]. rewrite H. destruct (p x); cbn [List.map]; now rewrite IH.
Qed.

(** X10. [filterDisplayResults] returns the rows in the same order with
    the eight displayed columns unchanged and none of the three flags;
    it changes nothing in a summary, and filtering twice is filtering
    once. *)
Theorem display_filter_keeps_columns :
  forall results : list ReconciliationResult,
    List.map displayed (filterDisplayResults results) = List.map displayed results
    /\ forallb hasNoFlag (filterDisplayResults results) = true
    /\ generateReconciliationSummary (filterDisplayResults results)
       = generateReconciliationSummary results
    /\ filterDisplayResults (filterDisplayResults results) = filterDisplayResults results.
Proof.
  intros results. unfold filterDisplayResults.
  split; [rewrite map_map; apply map_ext; reflexivity|].
  split; [rewrite forallb_forall; intros r Hr; apply in_map_iff in Hr;
          destruct Hr as [r0 [<- _]]; reflexivity|].
  split; [|rewrite map_map; apply map_ext; reflexivity].
  unfold generateReconciliationSummary.
  rewrite (filter_map_same _ _ isInvoiceRow); [|reflexivity].
  rewrite !(filter_map_same _ _ (hasStatus _)); try reflexivity.
  now rewrite !length_map.
Qed.

(** *** The validators *)

Import Validators.

Lemma parsesToNaN_typed (q : NumOrStr) :
  parsesToNaN (ofNumOrStr q) = Normal (is_nan (parseFloatToString q)).
Proof. destruct q; reflexivity. Qed.

Lemma ofLineItem_fields (item : LineItem) :
  truthyAny (ofLineItem item) = true
  /\ typeof (ofLineItem item) = "object"
  /\ get (ofLineItem item) "productName" = ofOption AStr (productName item)
  /\ get (ofLineItem item) "quantity" = ofOption ofNumOrStr (quantity item).
Proof. repeat split. Qed.

(** One turn of the loop over typed line items. *)
Lemma validateLineItems_typed_step (item : LineItem) (items : list LineItem) :
  validateLineItems (List.map ofLineItem (item :: items))
  = match productName item, quantity item with
    | Some (String _ _), Some q =>
        if is_nan (parseFloatToString q) then Normal false
        else validateLineItems (List.map ofLineItem items)
    | _, _ => Normal false
    end.
Proof.
  cbn [List.map validateLineItems].
  destruct (ofLineItem_fields item) as [Ht [Hty [Hp Hq]]].
  rewrite Ht, Hty, Hp, Hq.
  destruct (productName item) as [[|c name]|]; try reflexivity.
  destruct (quantity item) as [q|]; [|reflexivity].
  cbn [ofOption truthyAny typeof truthyStr negb orb String.eqb Ascii.eqb Bool.eqb].
  assert (Hq' : isNullish (ofNumOrStr q) = false) by (destruct q; reflexivity).
  rewrite Hq', parsesToNaN_typed.
  destruct (is_nan (parseFloatToString q)); reflexivity.
Qed.

Lemma validateLineItems_typed_true (items : list LineItem) :
  Forall wellFormedItem items ->
  validateLineItems (List.map ofLineItem items) = Normal true.
Proof.
  induction 1 as [|item items [[name [Hn Hne]] [q [Hq Hnan]]] _ IH]; [reflexivity|].
  rewrite validateLineItems_typed_step, Hn, Hq, Hnan.
  destruct name; [congruence | exact IH].
Qed.

Lemma validateLineItems_typed_sound (items : list LineItem) :
  validateLineItems (List.map ofLineItem items) = Normal true ->
  Forall wellFormedItem items.
Proof.
  induction items as [|item items IH]; [constructor|].
  rewrite validateLineItems_typed_step.
  destruct (productName item) as [[|c name]|] eqn:Hn; try discriminate.
  destruct (quantity item) as [q|] eqn:Hq; [|discriminate].
  destruct (is_nan (parseFloatToString q)) eqn:Hnan; [discriminate|].
  intros H. constructor; [|exact (IH H)].
  split; [exists (String c name); split; [exact Hn | discriminate]|].
  exists q. split; [exact Hq | exact Hnan].
Qed.

Lemma validateLineItems_typed_total (items : list LineItem) :
  exists b, validateLineItems (List.map ofLineItem items) = Normal b.
Proof.
  induction items as [|item items [b IH]]; [eexists; reflexivity|].
  rewrite validateLineItems_typed_step.
  destruct (productName item) as [[|c name]|]; try (eexists; reflexivity).
  destruct (quantity item) as [q|]; [|eexists; reflexivity].
  destruct (is_nan (parseFloatToString q)); [eexists; reflexivity|].
  exists b. exact IH.
Qed.

(** X11. On an invoice of the [InvoiceData] shape, [validateInvoiceData]
    never throws, and it answers [true] exactly when the PO number is a
    non-empty string, the line items are given, and every line item has
    a non-empty product name and a quantity that is given and reads as a
    number. An invoice with no line item at all is accepted. *)
Theorem validateInvoiceData_on_invoices :
  forall invoiceData : InvoiceData,
    (exists b, validateInvoiceData (ofInvoiceData invoiceData) = Normal b)
    /\ (validateInvoiceData (ofInvoiceData invoiceData) = Normal true
        <-> wellFormedInvoice invoiceData).
Proof.
  intros invoiceData. unfold validateInvoiceData, ofInvoiceData.
  cbn [get lookup String.eqb Ascii.eqb Bool.eqb truthyAny typeof negb orb].
  unfold wellFormedInvoice.
  destruct (poNumber invoiceData) as [[|c po]|];
    cbn [ofOption truthyAny typeof truthyStr negb orb String.eqb Ascii.eqb Bool.eqb].
  - split; [eexists; reflexivity|]. split; [discriminate|].
    intros [[po [E Hne]] _]. injection E as <-. congruence.
  - destruct (lineItems invoiceData) as [items|]; cbn [ofOption].
    + split; [apply validateLineItems_typed_total|]. split.
      * intros H. split; [exists (String c po); split; [reflexivity|discriminate]|].
        exists items. split; [reflexivity|]. now apply validateLineItems_typed_sound.
      * intros [_ [items' [E H]]]. injection E as <-.
        now apply validateLineItems_typed_true.
    + split; [eexists; reflexivity|]. split; [discriminate|].
      intros [_ [items [E _]]]. discriminate.
  - split; [eexists; reflexivity|]. split; [discriminate|].
    intros [[po [E _]] _]. discriminate.
Qed.

Lemma validateInvoiceData_on_invoices_witness :
  wellFormedInvoice (Samples.mkInvoice "PO1" [])
  /\ validateInvoiceData (ofInvoiceData (Samples.mkInvoice "PO1" [])) = Normal true
  /\ validateInvoiceData (ofInvoiceData Samples.widgetInvoice) = Normal true.
Proof.
  assert (H : wellFormedInvoice (Samples.mkInvoice "PO1" [])).
  { split; [exists "PO1"; split; [reflexivity | discriminate]|].
    exists []. split; [reflexivity | constructor]. }
  split; [exact H|].
  split; [exact (proj2 (proj2 (validateInvoiceData_on_invoices _)) H)|].
  reflexivity.
Defined.

(** X12. An invoice that [validateInvoiceData] accepts is reconciled
    without the two edge behaviours of unvalidated input: the quantity
    of every line item is a number, not [NaN], and every product name is
    non-empty, so the candidate pool of every line item is the staged
    selection without the conditions on empty fields. *)
Theorem validated_invoice_reconciles_cleanly :
  forall (invoiceData : InvoiceData) (items : list LineItem) (item : LineItem),
    validateInvoiceData (ofInvoiceData invoiceData) = Normal true ->
    lineItems invoiceData = Some items ->
    In item items ->
    is_nan (invoiceQty item) = false
    /\ orEmpty (productName item) <> ""
    /\ forall (opts : Opts) (pos : list PurchaseOrderRecord),
         poCandidates opts pos (orEmpty (productName item))
         = specCandidates opts pos (orEmpty (productName item)).
Proof.
  intros invoiceData items item Hv Hitems Hin.
  apply (proj2 (validateInvoiceData_on_invoices invoiceData)) in Hv.
  destruct Hv as [_ [items' [E Hall]]]. rewrite Hitems in E. injection E as <-.
  rewrite Forall_forall in Hall.
  destruct (Hall item Hin) as [[name [Hn Hne]] [q [Hq Hnan]]].
  assert (Hname : orEmpty (productName item) <> "") by (rewrite Hn; exact Hne).
  split; [|split; [exact Hname|]].
  - unfold invoiceQty. rewrite Hq. destruct q as [x|s]; [exact Hnan|].
    cbn [parseFloatOrZero]. destruct s; [discriminate Hnan | exact Hnan].
  - intros opts pos. rewrite poCandidates_stages. unfold specCandidates.
    unfold stageItemCode, stageDescription, specStageItemCode, specStageDescription.
    rewrite (filter_ext _ _ (fun po => guard_redundant _ (PurchaseSupplierItem po) Hname)).
    now rewrite (filter_ext _ _
                   (fun po => guard_redundant _ (PurchaseSupplierDescription po) Hname)).
Qed.

Lemma validated_invoice_reconciles_cleanly_witness :
  validateInvoiceData (ofInvoiceData Samples.widgetInvoice) = Normal true
  /\ lineItems Samples.widgetInvoice = Some [Samples.widgetItem]
  /\ In Samples.widgetItem [Samples.widgetItem]
  /\ is_nan (invoiceQty Samples.widgetItem) = false.
Proof.
  assert (H1 : validateInvoiceData (ofInvoiceData Samples.widgetInvoice) = Normal true)
    by reflexivity.
  assert (H2 : lineItems Samples.widgetInvoice = Some [Samples.widgetItem]) by reflexivity.
  assert (H3 : In Samples.widgetItem [Samples.widgetItem]) by (left; reflexivity).
  split; [exact H1|]. split; [exact H2|]. split; [exact H3|].
  exact (proj1 (validated_invoice_reconciles_cleanly _ _ _ H1 H2 H3)).
Defined.

Lemma get_present (props : list (string * Any)) (key : string) :
  isNullish (get (AObj props) key) = false ->
  exists v, lookup key props = Some v /\ isNullish v = false.
Proof.
  cbn [get]. destruct (lookup key props) as [v|]; [|discriminate].
  intros H. now exists v.
Qed.

Lemma object_if_accepted (v : Any) :
  negb (truthyAny v) || negb (String.eqb (typeof v) "object") = false ->
  (exists props, v = AObj props) \/ (exists elems, v = AArr elems).
Proof.
  destruct v as [| |b|x|s|elems|props]; try discriminate.
  - cbn [truthyAny typeof]. now rewrite orb_true_r.
  - cbn [truthyAny typeof]. now rewrite orb_true_r.
  - cbn [truthyAny typeof]. now rewrite orb_true_r.
  - intros _. right. eexists; reflexivity.
  - intros _. left. eexists; reflexivity.
Qed.

Lemma string_if_accepted (v : Any) :
  negb (truthyAny v) || negb (String.eqb (typeof v) "string") = false ->
  exists s, v = AStr s /\ s <> "".
Proof.
  destruct v as [| |b|x|s|elems|props]; try discriminate.
  - cbn [truthyAny typeof]. now rewrite orb_true_r.
  - cbn [truthyAny typeof]. now rewrite orb_true_r.
  - destruct s; [discriminate|]. intros _. eexists; split; [reflexivity|discriminate].
Qed.

Lemma validateLineItems_sound (items : list Any) :
  validateLineItems items = Normal true -> Forall acceptableItem items.
Proof.
  induction items as [|item items IH]; [constructor|].
  cbn [validateLineItems].
  destruct (negb (truthyAny item) || negb (String.eqb (typeof item) "object")) eqn:Ho;
    [discriminate|].
  destruct (negb (truthyAny (get item "productName")) || _) eqn:Hp; [discriminate|].
  destruct (isNullish (get item "quantity")) eqn:Hq; [discriminate|].
  destruct (parsesToNaN (get item "quantity")) as [[|]|] eqn:Hn; try discriminate.
  intros H. constructor; [|exact (IH H)].
  destruct (object_if_accepted item Ho) as [[props ->]|[elems ->]]; [|discriminate Hq].
  destruct (string_if_accepted _ Hp) as [name [En Hne]].
  destruct (get_present props "quantity" Hq) as [q [Elq Hnq]].
  exists props, name, q. cbn [get] in En, Hn. rewrite Elq in Hn.
  destruct (lookup "productName" props) as [pn|] eqn:Elp; [|discriminate En].
  subst pn. repeat split; assumption.
Qed.

(** X13. Whatever value it is given, when [validateInvoiceData] answers
    [true] the value is an object whose [poNumber] is a non-empty
    string and whose [lineItems] is an array, and every element of that
    array is an object with a non-empty string as [productName] and a
    [quantity] that is neither [null] nor [undefined] and reads as a
    number. *)
Theorem validateInvoiceData_guarantees :
  forall invoiceData : Any,
    validateInvoiceData invoiceData = Normal true ->
    exists props po items,
      invoiceData = AObj props
      /\ lookup "poNumber" props = Some (AStr po) /\ po <> ""
      /\ lookup "lineItems" props = Some (AArr items)
      /\ Forall acceptableItem items.
Proof.
  intros v. unfold validateInvoiceData.
  destruct (negb (truthyAny v) || negb (String.eqb (typeof v) "object")) eqn:Ho;
    [discriminate|].
  destruct (negb (truthyAny (get v "poNumber")) || _) eqn:Hp; [discriminate|].
  destruct (string_if_accepted _ Hp) as [po [Epo Hne]].
  destruct (object_if_accepted v Ho) as [[props ->]|[elems ->]]; [|discriminate Epo].
  cbn [get] in *.
  destruct (lookup "poNumber" props) as [pn|] eqn:E1; [|discriminate Epo]. subst pn.
  destruct (lookup "lineItems" props) as [[| |b|x|s|items|ps]|] eqn:E2; try discriminate.
  intros H. exists props, po, items.
  split; [reflexivity|]. split; [exact E1|]. split; [exact Hne|].
  split; [exact E2|]. now apply validateLineItems_sound.
Qed.

Lemma validateInvoiceData_guarantees_witness :
  validateInvoiceData
    (AObj [("poNumber", AStr "PO1");
           ("lineItems", AArr [AObj [("productName", AStr "Bolt");
                                     ("quantity", AArr [AStr "4 pcs"])]])])
  = Normal true
  /\ validateInvoiceData (AObj [("poNumber", AStr "PO1"); ("lineItems", AArr [ANull])])
     = Normal false.
Proof.
  assert (H : validateInvoiceData
                (AObj [("poNumber", AStr "PO1");
                       ("lineItems", AArr [AObj [("productName", AStr "Bolt");
                                                 ("quantity", AArr [AStr "4 pcs"])]])])
              = Normal true) by reflexivity.
  split; [exact H|].
  destruct (validateInvoiceData_guarantees _ H) as [props [po [items _]]].
  reflexivity.
Defined.

(** *** Purchase-order records *)

Lemma validateRecords_typed_step (po : PurchaseOrderRecord) (pos : list PurchaseOrderRecord) :
  validateRecords (List.map ofPORecord (po :: pos))
  = if is_nan (poQtyOf po) then Normal false
    else if is_nan (poPriceOf po) then Normal false
    else validateRecords (List.map ofPORecord pos).
Proof.
  cbn [List.map validateRecords].
  change (negb (truthyAny (ofPORecord po))
          || negb (String.eqb (typeof (ofPORecord po)) "object")) with false.
  assert (Hm : someFieldMissing (ofPORecord po) requiredFields = false).
  { unfold requiredFields, ofPORecord.
    cbn [someFieldMissing get lookup String.eqb Ascii.eqb Bool.eqb isNullish].
    destruct (PurchaseQty po), (PurchasePrice po); reflexivity. }
  rewrite Hm.
  change (get (ofPORecord po) "PurchaseQty") with (ofNumOrStr (PurchaseQty po)).
  change (get (ofPORecord po) "PurchasePrice") with (ofNumOrStr (PurchasePrice po)).
  rewrite !parsesToNaN_typed. unfold poQtyOf, poPriceOf.
  destruct (is_nan (parseFloatToString (PurchaseQty po))); [reflexivity|].
  destruct (is_nan (parseFloatToString (PurchasePrice po))); reflexivity.
Qed.

Lemma validateRecords_typed (pos : list PurchaseOrderRecord) :
  (exists b, validateRecords (List.map ofPORecord pos) = Normal b)
  /\ (validateRecords (List.map ofPORecord pos) = Normal true <-> Forall numericRecord pos).
Proof.
  induction pos as [|po pos [[b IHb] IH]].
  - split; [eexists; reflexivity|]. split; [constructor | reflexivity].
  - rewrite validateRecords_typed_step. unfold numericRecord at 1.
    destruct (is_nan (poQtyOf po)) eqn:Hq.
    { split; [eexists; reflexivity|]. split; [discriminate|].
      intros H. inversion H as [|? ? [Hq' _] _]. congruence. }
    destruct (is_nan (poPriceOf po)) eqn:Hp.
    { split; [eexists; reflexivity|]. split; [discriminate|].
      intros H. inversion H as [|? ? [_ Hp'] _]. congruence. }
    split; [exists b; exact IHb|]. split.
    + intros H. constructor; [split; assumption | now apply IH].
    + intros H. inversion H. now apply IH.
Qed.

(** X14. On a list of records of the [PurchaseOrderRecord] shape,
    [validatePORecords] never throws and answers [true] exactly when
    the quantity and the price of every record read as numbers. The
    result of reconciling against records it accepts has no PO row
    whose quantity or unit price is [NaN]. *)
Theorem validatePORecords_on_records :
  forall (host : Host) (poRecords : list PurchaseOrderRecord),
    (exists b, validatePORecords (AArr (List.map ofPORecord poRecords)) = Normal b)
    /\ (validatePORecords (AArr (List.map ofPORecord poRecords)) = Normal true
        <-> Forall numericRecord poRecords)
    /\ (validatePORecords (AArr (List.map ofPORecord poRecords)) = Normal true ->
        forall (invoiceData : InvoiceData) (options : MatchingOptions) r,
          In r (reconcileInvoiceData invoiceData poRecords options) ->
          Source r = PO ->
          is_nan (Qty r) = false /\ is_nan (Unit_Price r) = false).
Proof.
  intros host poRecords. cbn [validatePORecords].
  destruct (validateRecords_typed poRecords) as [Htot Hiff].
  split; [exact Htot|]. split; [exact Hiff|].
  intros Hv invoiceData options r Hr Hsrc. apply Hiff in Hv.
  rewrite Forall_forall in Hv.
  destruct poRecords as [|po0 poRecords]; [destruct Hr|].
  rewrite (reconcile_rows invoiceData (po0 :: poRecords) options) in Hr; [|discriminate].
  set (pos := matchingPOs _ _) in Hr. set (opts := withDefaults options) in Hr.
  apply in_flat_map in Hr. destruct Hr as [item [_ Hr]].
  destruct (selectedMatch opts pos item) as [m|] eqn:Hm.
  - destruct (itemRows_matched opts invoiceData pos item m Hm)
      as [ri [rp [Hrows [Hi [Hp _]]]]].
    rewrite Hrows in Hr. destruct Hr as [<-|[<-|[]]].
    + rewrite (proj1 Hi) in Hsrc. discriminate.
    + destruct Hp as [_ [_ [_ [Hq [Hu _]]]]]. rewrite Hq, Hu.
      apply Hv. pose proof (selectedMatch_in opts pos item m Hm) as Hin.
      unfold pos, matchingPOs in Hin. now apply filter_In in Hin.
  - destruct (itemRows_unmatched opts invoiceData pos item Hm) as [ri [Hrows [Hs _]]].
    rewrite Hrows in Hr. destruct Hr as [<-|[]]. rewrite Hs in Hsrc. discriminate.
Qed.

Lemma validatePORecords_on_records_witness :
  validatePORecords (AArr (List.map ofPORecord [Samples.widgetPO8])) = Normal true
  /\ exists r,
       In r (@reconcileInvoiceData Samples.silentHost Samples.widgetInvoice
               [Samples.widgetPO8] noOptions)
       /\ Source r = PO /\ is_nan (Qty r) = false.
Proof.
  assert (Hv : validatePORecords (AArr (List.map ofPORecord [Samples.widgetPO8]))
               = Normal true) by reflexivity.
  split; [exact Hv|].
  set (results := @reconcileInvoiceData Samples.silentHost Samples.widgetInvoice
                    [Samples.widgetPO8] noOptions).
  exists (nth 1 results (Samples.poRow MATCH)).
  assert (Hin : In (nth 1 results (Samples.poRow MATCH)) results)
    by (vm_compute; right; left; reflexivity).
  assert (Hs : Source (nth 1 results (Samples.poRow MATCH)) = PO) by reflexivity.
  split; [exact Hin|]. split; [exact Hs|].
  exact (proj1 (proj2 (proj2 (validatePORecords_on_records Samples.silentHost
                                [Samples.widgetPO8])) Hv Samples.widgetInvoice
                  noOptions _ Hin Hs)).
Defined.

Lemma someFieldMissing_false (props : list (string * Any)) (fields : list string) :
  someFieldMissing (AObj props) fields = false ->
  forall field, In field fields ->
    exists v, lookup field props = Some v /\ isNullish v = false.
Proof.
  induction fields as [|f fields IH]; [intros _ field []|].
  cbn [someFieldMissing].
  destruct (isNullish (get (AObj props) f)) eqn:Hf; [discriminate|].
  intros H field [<-|Hin]; [now apply get_present | now apply IH].
Qed.

Lemma validateRecords_sound (records : list Any) :
  validateRecords records = Normal true -> Forall acceptableRecord records.
Proof.
  induction records as [|record records IH]; [constructor|].
  cbn [validateRecords].
  destruct (negb (truthyAny record) || negb (String.eqb (typeof record) "object")) eqn:Ho;
    [discriminate|].
  destruct (someFieldMissing record requiredFields) eqn:Hm; [discriminate|].
  destruct (parsesToNaN (get record "PurchaseQty")) as [[|]|] eqn:Hq; try discriminate.
  destruct (parsesToNaN (get record "PurchasePrice")) as [[|]|] eqn:Hp; try discriminate.
  intros H. constructor; [|exact (IH H)].
  destruct (object_if_accepted record Ho) as [[props ->]|[elems ->]];
    [|discriminate Hm].
  exists props. split; [reflexivity|].
  split; [now apply someFieldMissing_false|]. split; assumption.
Qed.

(** X15. Whatever value it is given, when [validatePORecords] answers
    [true] the value is an array, and every element of it is an object
    in which the six required fields are present, neither [null] nor
    [undefined], and whose [PurchaseQty] and [PurchasePrice] read as
    numbers. *)
Theorem validatePORecords_guarantees :
  forall poRecords : Any,
    validatePORecords poRecords = Normal true ->
    exists records, poRecords = AArr records /\ Forall acceptableRecord records.
Proof.
  intros v. unfold validatePORecords.
  destruct v as [| |b|x|s|records|props]; try discriminate.
  intros H. exists records. split; [reflexivity|]. now apply validateRecords_sound.
Qed.

Lemma validatePORecords_guarantees_witness :
  validatePORecords
    (AArr [AObj [("PurchaseOrderID", AStr "PO1"); ("PurchaseQty", AStr "10");
                 ("PurchasePrice", ANum 5); ("DateRequired", AStr "");
                 ("PurchaseSupplierItem", ANum 7);
                 ("PurchaseSupplierDescription", ABool false)]])
  = Normal true
  /\ validatePORecords (AArr []) = Normal true
  /\ validatePORecords (AObj []) = Normal false.
Proof.
  assert (H : validatePORecords
                (AArr [AObj [("PurchaseOrderID", AStr "PO1"); ("PurchaseQty", AStr "10");
                             ("PurchasePrice", ANum 5); ("DateRequired", AStr "");
                             ("PurchaseSupplierItem", ANum 7);
                             ("PurchaseSupplierDescription", ABool false)]])
              = Normal true) by reflexivity.
  split; [exact H|].
  destruct (validatePORecords_guarantees _ H) as [records _].
  split; reflexivity.
Defined.

Lemma validateRecords_app (l1 l2 : list Any) :
  validateRecords (l1 ++ l2) = andThen (validateRecords l1) (validateRecords l2).
Proof.
  induction l1 as [|record l1 IH].
  - cbn [app validateRecords andThen]. now destruct (validateRecords l2) as [[|]|].
  - cbn [app validateRecords].
    destruct (negb (truthyAny record) || _); [reflexivity|].
    destruct (someFieldMissing record requiredFields); [reflexivity|].
    destruct (parsesToNaN (get record "PurchaseQty")) as [[|]|]; try reflexivity.
    destruct (parsesToNaN (get record "PurchasePrice")) as [[|]|]; try reflexivity.
    exact IH.
Qed.

Lemma validateLineItems_app (l1 l2 : list Any) :
  validateLineItems (l1 ++ l2) = andThen (validateLineItems l1) (validateLineItems l2).
Proof.
  induction l1 as [|item l1 IH].
  - cbn [app validateLineItems andThen]. now destruct (validateLineItems l2) as [[|]|].
  - cbn [app validateLineItems].
    destruct (negb (truthyAny item) || _); [reflexivity|].
    destruct (negb (truthyAny (get item "productName")) || _); [reflexivity|].
    destruct (isNullish (get item "quantity")); [reflexivity|].
    destruct (parsesToNaN (get item "quantity")) as [[|]|]; try reflexivity.
    exact IH.
Qed.

(** X16. Both validators examine the elements in order and stop at the
    first one they reject: validating a concatenation is validating its
    first part and, only if that is accepted, its second part. So one
    rejected record rejects the whole batch, and nothing after it is
    examined, not even a value whose conversion would throw. *)
Theorem validators_stop_at_first_rejection :
  forall (records1 records2 items1 items2 : list Any) (c : ascii) (po : string)
         (props : list (string * Any)),
    let invoiceOf items :=
      AObj (("poNumber", AStr (String c po)) :: ("lineItems", AArr items) :: props) in
    validatePORecords (AArr (records1 ++ records2))
    = andThen (validatePORecords (AArr records1)) (validatePORecords (AArr records2))
    /\ validateInvoiceData (invoiceOf (items1 ++ items2))
       = andThen (validateInvoiceData (invoiceOf items1))
                 (validateInvoiceData (invoiceOf items2)).
Proof.
  intros records1 records2 items1 items2 c po props invoiceOf. split.
  - cbn [validatePORecords]. apply validateRecords_app.
  - subst invoiceOf. unfold validateInvoiceData.
    cbn [get lookup String.eqb Ascii.eqb Bool.eqb truthyAny typeof truthyStr negb orb].
    apply validateLineItems_app.
Qed.

(* ================================================================= *)
(** ** The embedding on concrete inputs *)

Module Checks.
Import Samples.

Local Open Scope float_scope.

Example parseFloat_integer : parseFloat "10" = 10.
Proof. reflexivity. Qed.

Example parseFloat_fraction : parseFloat "0.1" = 0.1.
Proof. reflexivity. Qed.

Example parseFloat_prefix : parseFloat "  12.5px" = 12.5.
Proof. reflexivity. Qed.

Example parseFloat_exponent : parseFloat "123.456e2" = 12345.6.
Proof. reflexivity. Qed.

Example parseFloat_largest : parseFloat "1.7976931348623157e308" = 0x1.fffffffffffffp+1023.
Proof. reflexivity. Qed.

Example parseFloat_overflow : parseFloat "1.7976931348623159e308" = infinity.
Proof. reflexivity. Qed.

Example parseFloat_smallest : parseFloat "5e-324" = 0x1p-1074.
Proof. reflexivity. Qed.

Example parseFloat_underflow : parseFloat "2.4e-324" = 0.
Proof. reflexivity. Qed.

Example parseFloat_half_even : parseFloat "9007199254740993" = 9007199254740992.
Proof. reflexivity. Qed.

Example parseFloat_sum : parseFloat "0.30000000000000004" = 0.1 + 0.2.
Proof. reflexivity. Qed.

Example parseFloat_word : is_nan (parseFloat "abc") = true.
Proof. reflexivity. Qed.

Example parseFloat_empty : is_nan (parseFloat "") = true.
Proof. reflexivity. Qed.

Example unit_price_string_zero :
  invoicePrice zeroStringPriceItem = 0 /\ invoiceQty zeroStringPriceItem = 2.
Proof. split; reflexivity. Qed.

Example splitWs_edges : splitWs "  a b  c " = [""; "a"; "b"; "c"; ""].
Proof. reflexivity. Qed.

Example itemKeywords_words : itemKeywords " hex  bolt m8 " = ["HEX"; "BOLT"; "M8"].
Proof. reflexivity. Qed.

Example newDate_carries :
  formatDate (newDate (Some 2025) (Some 12) (Some 45))%Z = "02/14/2026".
Proof. reflexivity. Qed.

Example newDate_leap_day :
  formatDate (newDate (Some 2024) (Some 1) (Some 29))%Z = "02/29/2024".
Proof. reflexivity. Qed.

Example newDate_two_digit_year :
  formatDate (newDate (Some 25) (Some 0) (Some 1))%Z = "01/01/1925".
Proof. reflexivity. Qed.

Example newDate_epoch : (newDate (Some 1970) (Some 0) (Some 1) = OnDay 0)%Z.
Proof. reflexivity. Qed.

Section OnSilentHost.
Local Existing Instance silentHost.

Example standardize_null :
  standardizeDate (Some "NULL") = "" /\ standardizeDate (Some "") = ""
  /\ standardizeDate None = "" /\ datesEqual "" "" = true.
Proof. repeat split. Qed.

Example standardize_iso : standardizeDate (Some "2025-04-07") = "04/07/2025".
Proof. reflexivity. Qed.

Example standardize_timestamp : standardizeDate (Some "2025-04-07 00:00:00") = "04/07/2025".
Proof. reflexivity. Qed.

Example standardize_slash : standardizeDate (Some "04/07/2025") = "04/07/2025".
Proof. reflexivity. Qed.

Example standardize_dash : standardizeDate (Some "04-07-2025") = "04/07/2025".
Proof. reflexivity. Qed.

Example standardize_year_25 : standardizeDate (Some "04/07/25") = "04/07/2025".
Proof. reflexivity. Qed.

Example standardize_year_75 : standardizeDate (Some "04/07/75") = "04/07/1975".
Proof. reflexivity. Qed.

Example standardize_month_name : standardizeDate (Some "April 7, 2025") = "04/07/2025".
Proof. reflexivity. Qed.

Example standardize_short_month : standardizeDate (Some "Apr 7, 2025") = "04/07/2025".
Proof. reflexivity. Qed.

Example scenario_match :
  let rows := reconcileInvoiceData widgetInvoice [widgetPO] noOptions in
  List.map Source rows = [INVOICE; PO]
  /\ List.map Status rows = [MATCH; MATCH]
  /\ List.map Date rows = [""; "01/01/2025"]
  /\ List.map Item_Description rows = ["Widget A"; "WIDGET-A - Widget A"]
  /\ generateReconciliationSummary rows
     = {| totalItems := 1; matches := 1; discrepancies := 0; noMatches := 0 |}.
Proof. repeat split. Qed.

Example scenario_discrepancy :
  let rows := reconcileInvoiceData widgetInvoice [widgetPO8] noOptions in
  List.map Status rows = [DISCREPANCY; DISCREPANCY]
  /\ List.map _qty_match rows = [Some false; Some false]
  /\ List.map _price_match rows = [Some true; Some true].
Proof. repeat split. Qed.

Example scenario_no_match :
  let rows := reconcileInvoiceData (mkInvoice "PO1" [mkItem "Steel Gasket" (Some (JNum 1)) None])
                                   [widgetPO] noOptions in
  List.map Status rows = [NO_MATCH]
  /\ List.map _qty_match rows = [None]
  /\ generateReconciliationSummary rows
     = {| totalItems := 1; matches := 0; discrepancies := 0; noMatches := 1 |}.
Proof. repeat split. Qed.

Example scenario_date_required :
  let options := {| quantityTolerance := None; priceTolerance := None;
                    minKeywordMatches := None; requireDateMatch := Some true |} in
  List.map Status (reconcileInvoiceData widgetInvoice [widgetPO] options)
  = [DISCREPANCY; DISCREPANCY].
Proof. reflexivity. Qed.

End OnSilentHost.

End Checks.
